(** * app.py: a Flask greeting service and its launcher

    The program is thirteen lines of Python:

      - line 4 builds the application object, [app = Flask(__name__)];
      - lines 6-8 register the view [hello] under the rule ["/"];
      - lines 10-13, run only when the file is the main script, resolve the
        listening port with [int(os.environ.get("PORT", 5000))] and hand the
        application to [app.run(debug=True, host='0.0.0.0', port=port)].

    [App] embeds these lines.  What they call is embedded beside them:
    [PyInt] is the builtin [int] on strings, as CPython's
    [PyLong_FromString] computes it; [Werkzeug] and [FlaskApp] are the
    part of the framework the program relies on for a request: rule
    registration with its default methods, matching, and the conversion
    of a view's return value into a response.  The application is the
    callable [wsgi_app]; the server around it (sockets, HTTP parsing, the
    debugger that [debug=True] enables) is represented by the
    server-start event and the list of requests it delivers. *)

From Stdlib Require Import ZArith Lia List Ascii String Bool.
From stdpp Require Import base option list gmap strings.
Import ListNotations.

Local Open Scope Z_scope.

(** ** Python strings and integers *)

(** A Python [str] is a sequence of code points.  The model reads a Rocq
    [string] as such a sequence with every code point below 256. *)
Definition ord (c : ascii) : Z := Z.of_N (N_of_ascii c).

Definition chars (s : string) : list ascii := list_ascii_of_string s.

(** The values that reach [int] in app.py: the [str] stored in the
    environment, or the [int] literal given as default. *)
Inductive PyVal : Type :=
| PyStr (s : string)
| PyInt (z : Z).

Module PyInt.

(** [Py_ISSPACE] of pyctype.h: tab, line feed, vertical tab, form feed,
    carriage return and space. *)
Definition Py_ISSPACE (c : ascii) : bool :=
  ((9 <=? ord c) && (ord c <=? 13)) || (ord c =? 32).

(** [Py_UNICODE_ISSPACE] on the code points 127..255: NEL and NBSP. *)
Definition Py_UNICODE_ISSPACE (c : ascii) : bool :=
  (ord c =? 133) || (ord c =? 160).

(** [_PyLong_DigitValue[c] < 10]: the value of a decimal digit. *)
Definition digit_value (c : ascii) : option Z :=
  if (48 <=? ord c) && (ord c <=? 57) then Some (ord c - 48) else None.

Definition is_underscore (c : ascii) : bool := ord c =? 95.

Definition PyUnicode_IS_ASCII (s : list ascii) : bool :=
  forallb (fun c => ord c <? 128) s.

(** The loop of [_PyUnicode_TransformDecimalAndSpaceToASCII]: code points
    below 127 are kept, other white space becomes a space, and the first
    code point that is neither white space nor a decimal digit becomes
    ["?"] and ends the output.  No code point in 127..255 is a decimal
    digit. *)
Fixpoint transform_loop (s : list ascii) : list ascii :=
  match s with
  | [] => []
  | c :: r =>
      if ord c <? 127 then c :: transform_loop r
      else if Py_UNICODE_ISSPACE c then " "%char :: transform_loop r
      else ["?"%char]
  end.

Definition _PyUnicode_TransformDecimalAndSpaceToASCII (s : list ascii)
  : list ascii :=
  if PyUnicode_IS_ASCII s then s else transform_loop s.

(** The loop that steps over leading (and later trailing) white
    space. *)
Fixpoint skip_spaces (s : list ascii) : list ascii :=
  match s with
  | c :: r => if Py_ISSPACE c then skip_spaces r else s
  | [] => []
  end.

(** An optional sign: a plus is stepped over, a minus is stepped over
    and sets [sign] to [-1]. *)
Definition read_sign (s : list ascii) : Z * list ascii :=
  match s with
  | c :: r =>
      if ord c =? 43 then (1, r)
      else if ord c =? 45 then (-1, r)
      else (1, s)
  | [] => (1, s)
  end.

(** The scanning loop for the digits: it runs while the character is a
    decimal digit or an underscore, refuses two underscores in a row and
    a trailing underscore, and returns the digits read with the text
    that follows them.  [prev] is the character read last. *)
Fixpoint scan_digits (prev : ascii) (s : list ascii)
  : option (list Z * list ascii) :=
  match s with
  | c :: r =>
      match digit_value c with
      | Some d =>
          match scan_digits c r with
          | Some (ds, rest) => Some (d :: ds, rest)
          | None => None
          end
      | None =>
          if is_underscore c then
            if is_underscore prev then None else scan_digits c r
          else
            if is_underscore prev then None else Some ([], s)
      end
  | [] => if is_underscore prev then None else Some ([], [])
  end.

(** The conversion loop: base ten, most significant digit first. *)
Definition decimal_value (ds : list Z) : Z :=
  fold_left (fun acc d => 10 * acc + d) ds 0.

(** The guard against long literals, in interpreters that have it: more
    than [max_str_digits] digits are refused when that setting is not
    zero and the literal has more than 640 digits.  An interpreter
    without the guard is one with the setting at zero. *)
Definition _PY_LONG_MAX_STR_DIGITS_THRESHOLD : nat := 640.

Definition too_many_digits (max_str_digits digits : nat) : bool :=
  (_PY_LONG_MAX_STR_DIGITS_THRESHOLD <? digits)%nat &&
  (0 <? max_str_digits)%nat && (max_str_digits <? digits)%nat.

(** [PyLong_FromString(str, &end, 10)] followed by the caller's test
    that [end] is the end of the buffer.  [None] stands for the
    [ValueError] raised at [onError] or by the guard. *)
Definition PyLong_FromString (max_str_digits : nat) (str : list ascii)
  : option Z :=
  let str := skip_spaces str in
  let '(sign, str) := read_sign str in
  match str with
  | c :: _ => if is_underscore c then None else
      match scan_digits zero str with
      | Some (ds, rest) =>
          if (List.length rest =? List.length str)%nat then None
          else match skip_spaces rest with
               | [] =>
                   if too_many_digits max_str_digits (List.length ds)
                   then None
                   else Some (sign * decimal_value ds)
               | _ :: _ => None
               end
      | None => None
      end
  | [] => None
  end.

(** [PyLong_FromUnicodeObject(u, 10)]: what [int(u)] computes for a
    [str]. *)
Definition PyLong_FromUnicodeObject (max_str_digits : nat) (u : string)
  : option Z :=
  PyLong_FromString max_str_digits
    (_PyUnicode_TransformDecimalAndSpaceToASCII (chars u)).

(** *** The grammar of integer literals

    The language reference describes what [int] accepts in words: decimal
    digits, "optionally preceded by + or - (with no space in between)",
    possibly "surrounded by whitespace", with "single underscores
    interspersed between digits", and no longer than the interpreter's
    limit on digits allows.  [integer_literal] follows these words; it is
    compared with [PyLong_FromString] below. *)

(** One or more digits, any two neighbours separated by at most one
    underscore; the second index lists the digits' values. *)
Inductive digit_groups : list ascii -> list Z -> Prop :=
| dg_last c d :
    digit_value c = Some d ->
    digit_groups [c] [d]
| dg_digit c d s ds :
    digit_value c = Some d ->
    digit_groups s ds ->
    digit_groups (c :: s) (d :: ds)
| dg_underscore c d s ds :
    digit_value c = Some d ->
    digit_groups s ds ->
    digit_groups (c :: "_"%char :: s) (d :: ds).

Inductive sign_prefix : list ascii -> Z -> Prop :=
| sp_none : sign_prefix [] 1
| sp_plus : sign_prefix ["+"%char] 1
| sp_minus : sign_prefix ["-"%char] (-1).

Definition white_space (ws : list ascii) : Prop :=
  Forall (fun c => Py_ISSPACE c = true) ws.

Definition integer_literal (max_str_digits : nat) (s : list ascii) (z : Z)
  : Prop :=
  exists ws1 sg sign body ds ws2,
    s = ws1 ++ sg ++ body ++ ws2 /\
    white_space ws1 /\ white_space ws2 /\
    sign_prefix sg sign /\
    digit_groups body ds /\
    too_many_digits max_str_digits (List.length ds) = false /\
    z = sign * decimal_value ds.

(** Where the scanning loop stops: at the end of the text, or in front of
    a character that is neither a digit nor an underscore. *)
Definition stops (rest : list ascii) : Prop :=
  match rest with
  | [] => True
  | c :: _ => digit_value c = None /\ is_underscore c = false
  end.

(** A [str] that denotes the integer [z]. *)
Definition valid_integer_string (max_str_digits : nat) (u : string) (z : Z)
  : Prop :=
  integer_literal max_str_digits
    (_PyUnicode_TransformDecimalAndSpaceToASCII (chars u)) z.

End PyInt.

(** ** Effects

    Module-level code and view functions run in [Py]: they read and write
    the process state [World] and either return or raise. *)

Inductive Method : Type :=
| GET | HEAD | POST | PUT | DELETE | CONNECT | OPTIONS | TRACE | PATCH.

Inductive HTTPError : Type :=
| NotFound
| MethodNotAllowed (valid_methods : list Method).

Inductive Exc : Type :=
| ValueError (literal : string)
| KeyError (key : string)
| HTTPException (e : HTTPError).

(** What the process does that can be seen from outside a function: a
    store into the module's namespace, and the server-start call
    [app.run(debug, host, port)], which hands the framework the address
    to bind the listening socket at and enters its serving loop. *)
Inductive Event : Type :=
| Store (name : string) (v : PyVal)
| AppRun (debug : bool) (host : string) (port : Z).

(** The process state: the interpreter's limit on the digits of an
    integer literal ([sys.get_int_max_str_digits()], zero for none), the
    data bound in the module's namespace, and the effects so far. *)
Record World : Type := mkWorld {
  int_max_str_digits : nat;
  globals : gmap string PyVal;
  trace : list Event
}.

Inductive Result (A : Type) : Type :=
| Ok (a : A)
| Raise (e : Exc).

Arguments Ok {A} a.
Arguments Raise {A} e.

Definition Py (A : Type) : Type := World -> Result A * World.

Definition ret {A : Type} (a : A) : Py A := fun w => (Ok a, w).

Definition raise {A : Type} (e : Exc) : Py A := fun w => (Raise e, w).

Definition bind {A B : Type} (c : Py A) (k : A -> Py B) : Py B :=
  fun w =>
    match c w with
    | (Ok a, w') => k a w'
    | (Raise e, w') => (Raise e, w')
    end.

(** [try: c  except HTTPException as e: h e] *)
Definition catch_http {A : Type} (c : Py A) (h : HTTPError -> Py A) : Py A :=
  fun w =>
    match c w with
    | (Raise (HTTPException e), w') => h e w'
    | r => r
    end.

Definition emit (e : Event) : Py unit :=
  fun w => (Ok tt, mkWorld (int_max_str_digits w) (globals w) (trace w ++ [e])).

(** [name = v] at module level. *)
Definition store_global (name : string) (v : PyVal) : Py unit :=
  fun w =>
    (Ok tt,
     mkWorld (int_max_str_digits w) (<[name := v]> (globals w))
       (trace w ++ [Store name v])).

Declare Scope py_scope.
Delimit Scope py_scope with py.
Notation "x <- c ; k" := (bind c (fun x => k))
  (at level 20, c at level 100, k at level 200, only parsing) : py_scope.
Notation "c ;; k" := (bind c (fun _ => k))
  (at level 100, k at level 200, only parsing, right associativity)
  : py_scope.

(** [int(v)]: an [int] is returned as it is, a [str] is parsed. *)
Definition py_int (v : PyVal) : Py Z :=
  match v with
  | PyInt z => ret z
  | PyStr s =>
      fun w =>
        match PyInt.PyLong_FromUnicodeObject (int_max_str_digits w) s with
        | Some z => ret z w
        | None => raise (ValueError s) w
        end
  end.

(** [os.environ.get(key, default)] *)
Definition environ_get (environ : gmap string string) (key : string)
  (default : PyVal) : PyVal :=
  match environ !! key with
  | Some s => PyStr s
  | None => default
  end.

(** ** Werkzeug: requests, responses, URL rules *)

Module Werkzeug.

#[global] Instance Method_eq_dec : EqDecision Method.
Proof. solve_decision. Defined.

(** What the framework hands to the application for one HTTP request.
    [path] is Werkzeug's [request.path]: the URL path with exactly one
    leading slash, percent-decoded, without the query string, which is a
    field of its own. *)
Record Request : Type := mkRequest {
  method : Method;
  path : string;
  query_string : string;
  headers : list (string * string);
  data : string
}.

Record Response : Type := mkResponse {
  status_code : Z;
  mimetype : string;
  allow : list Method;
  get_data : string
}.

(** A rule of the URL map, compiled.  The application has rules of two
    shapes: fixed text, and fixed text followed by one [<path:name>]
    converter. *)
Inductive Pattern : Type :=
| Exact (text : string)
| PathSuffix (prefix : string) (name : string).

Definition compile_rule (rule : string) : Pattern :=
  match String.index 0 "<path:" rule with
  | Some i =>
      PathSuffix (String.substring 0 i rule)
        (String.substring (i + 6) (String.length rule - i - 7) rule)
  | None => Exact rule
  end.

(** The [path] converter matches the regular expression [[^/].*?]: at
    least one character, the first of which is not a slash. *)
Definition match_pattern (p : Pattern) (path : string) : bool :=
  match p with
  | Exact text => String.eqb text path
  | PathSuffix pre _ =>
      String.prefix pre path &&
      match String.get (String.length pre) path with
      | Some c => negb (Ascii.eqb c "/")
      | None => false
      end
  end.

Record Rule : Type := mkRule {
  rule : string;
  methods : list Method;
  endpoint : string;
  provide_automatic_options : bool
}.

(** [Rule.__init__]: a rule that answers GET answers HEAD as well. *)
Definition Rule_new (rule : string) (methods : list Method)
  (endpoint : string) : Rule :=
  let methods :=
    if bool_decide (GET ∈ methods) && negb (bool_decide (HEAD ∈ methods))
    then methods ++ [HEAD] else methods in
  mkRule rule methods endpoint false.

(** [MapAdapter.match]: the first rule that matches the path and allows
    the method; a path matched only by rules of other methods raises
    [MethodNotAllowed] with those methods, an unmatched path raises
    [NotFound].  The redirect Werkzeug answers when a path matches a rule
    only after doubled slashes inside it are merged is left out: such a
    path counts as unmatched. *)
Fixpoint match_rules (rules : list Rule) (m : Method) (path_info : string)
  (have_match_for : list Method) : Rule + HTTPError :=
  match rules with
  | [] =>
      match have_match_for with
      | [] => inr NotFound
      | _ :: _ => inr (MethodNotAllowed have_match_for)
      end
  | r :: rs =>
      if match_pattern (compile_rule (rule r)) path_info then
        if bool_decide (m ∈ methods r) then inl r
        else match_rules rs m path_info (have_match_for ++ methods r)
      else match_rules rs m path_info have_match_for
  end.

(** [MapAdapter.allowed_methods]: the methods of every rule that matches
    the path. *)
Definition allowed_methods (rules : list Rule) (path_info : string)
  : list Method :=
  flat_map
    (fun r => if match_pattern (compile_rule (rule r)) path_info
              then methods r else [])
    rules.

Definition nl : string := String (ascii_of_nat 10) EmptyString.

Definition error_code (e : HTTPError) : Z :=
  match e with NotFound => 404 | MethodNotAllowed _ => 405 end.

Definition error_name (e : HTTPError) : string :=
  match e with
  | NotFound => "Not Found"
  | MethodNotAllowed _ => "Method Not Allowed"
  end.

Definition error_description (e : HTTPError) : string :=
  match e with
  | NotFound =>
      "The requested URL was not found on the server. If you entered the URL manually please check your spelling and try again."
  | MethodNotAllowed _ => "The method is not allowed for the requested URL."
  end.

Definition decimal3 (n : Z) : string :=
  let d k := String (ascii_of_N (Z.to_N (48 + (n / k) mod 10))) EmptyString in
  d 100 +:+ d 10 +:+ d 1.

(** [HTTPException.get_body] *)
Definition get_body (e : HTTPError) : string :=
  "<!doctype html>" +:+ nl +:+
  "<html lang=en>" +:+ nl +:+
  "<title>" +:+ decimal3 (error_code e) +:+ " " +:+ error_name e +:+ "</title>" +:+ nl +:+
  "<h1>" +:+ error_name e +:+ "</h1>" +:+ nl +:+
  "<p>" +:+ error_description e +:+ "</p>" +:+ nl.

(** [HTTPException.get_response]: the page above under the exception's
    status code; [MethodNotAllowed] lists its methods in [Allow]. *)
Definition get_response (e : HTTPError) : Response :=
  mkResponse (error_code e) "text/html"
    match e with NotFound => [] | MethodNotAllowed ms => ms end
    (get_body e).

(** [Response.get_app_iter]: the body is dropped when the request was a
    HEAD and for the statuses that carry none. *)
Definition get_app_iter (m : Method) (r : Response) : Response :=
  if bool_decide (m = HEAD)
     || ((100 <=? status_code r) && (status_code r <? 200))
     || (status_code r =? 204) || (status_code r =? 304)
  then mkResponse (status_code r) (mimetype r) (allow r) EmptyString
  else r.

End Werkzeug.

(** ** Flask: the application object and request dispatch *)

Module FlaskApp.
Import Werkzeug.

Local Open Scope py_scope.

(** What a view function may return: a [str], made into a response by
    [make_response], or a response object. *)
Inductive ReturnValue : Type :=
| RvStr (s : string)
| RvResponse (r : Response).

(** A view function runs with the current request at hand (the
    context-local [flask.request]) and with access to the process
    state. *)
Definition View : Type := Request -> Py ReturnValue.

Record Flask : Type := mkFlask {
  import_name : string;
  url_map : list Rule;
  view_functions : gmap string View
}.

(** [Flask.send_static_file].  The repository has no [static] directory
    beside app.py, so the file test of [send_from_directory] fails for
    every name and the view raises [NotFound]. *)
Definition send_static_file : View :=
  fun _ => raise (HTTPException NotFound).

(** [Flask.add_url_rule(rule, endpoint, view_func, methods=...)]: the
    methods default to GET; unless the caller lists OPTIONS, it is added
    and answered by the framework itself.  The assertion that an endpoint
    is not given a second, different function is left out: the
    application's two endpoints differ. *)
Definition add_url_rule (app : Flask) (rule : string) (endpoint : string)
  (view_func : View) (methods : option (list Method)) : Flask :=
  let methods := default [GET] methods in
  let automatic := negb (bool_decide (OPTIONS ∈ methods)) in
  let methods := if automatic then methods ++ [OPTIONS] else methods in
  let r := Rule_new rule methods endpoint in
  mkFlask (import_name app)
    (url_map app ++
       [mkRule (Werkzeug.rule r) (Werkzeug.methods r) (Werkzeug.endpoint r)
          automatic])
    (<[endpoint := view_func]> (view_functions app)).

(** [Flask(import_name)]: an empty application but for the rule that
    serves static files. *)
Definition Flask_new (import_name : string) : Flask :=
  add_url_rule (mkFlask import_name [] ∅)
    "/static/<path:filename>" "static" send_static_file None.

(** The decorator [@app.route(rule)] over [def name(): ...]: the endpoint
    is the function's name. *)
Definition route (app : Flask) (rule : string) (name : string) (f : View)
  : Flask :=
  add_url_rule app rule name f None.

(** [Flask.make_response] on the return values above: a [str] becomes
    the body of a response with status 200 and the default mimetype. *)
Definition make_response (rv : ReturnValue) : Response :=
  match rv with
  | RvStr s => mkResponse 200 "text/html" [] s
  | RvResponse r => r
  end.

(** [Flask.make_default_options_response] *)
Definition make_default_options_response (app : Flask) (req : Request)
  : Response :=
  mkResponse 200 "text/html" (allowed_methods (url_map app) (path req))
    EmptyString.

(** [Flask.dispatch_request]: the routing exception if matching failed,
    the automatic OPTIONS answer, or the view function of the matched
    rule. *)
Definition dispatch_request (app : Flask) (req : Request) : Py ReturnValue :=
  match match_rules (url_map app) (method req) (path req) [] with
  | inr e => raise (HTTPException e)
  | inl r =>
      if provide_automatic_options r && bool_decide (method req = OPTIONS)
      then ret (RvResponse (make_default_options_response app req))
      else
        match view_functions app !! endpoint r with
        | Some view => view req
        | None => raise (KeyError (endpoint r))
        end
  end.

(** [Flask.full_dispatch_request]: an [HTTPException], with no error
    handler registered, is returned as its own response. *)
Definition full_dispatch_request (app : Flask) (req : Request) : Py Response :=
  rv <- catch_http (dispatch_request app req)
          (fun e => ret (RvResponse (get_response e))) ;
  ret (make_response rv).

(** [Flask.wsgi_app], up to the body that is sent.  Other exceptions
    propagate to the server, as they do in debug mode. *)
Definition wsgi_app (app : Flask) (req : Request) : Py Response :=
  resp <- full_dispatch_request app req ;
  ret (get_app_iter (method req) resp).

Definition internal_server_error : Response :=
  mkResponse 500 "text/html" [] "Internal Server Error".

(** One turn of the serving loop: the server answers an exception of the
    application with status 500 and goes on. *)
Definition handle_request (app : Flask) (req : Request) : Py Response :=
  fun w =>
    match wsgi_app app req w with
    | (Ok resp, w') => (Ok resp, w')
    | (Raise _, w') => (Ok internal_server_error, w')
    end.

(** The serving loop over the requests that arrive. *)
Fixpoint serve_forever (app : Flask) (reqs : list Request)
  : Py (list Response) :=
  match reqs with
  | [] => ret []
  | req :: rest =>
      resp <- handle_request app req ;
      resps <- serve_forever app rest ;
      ret (resp :: resps)
  end.

(** [Flask.run(debug, host, port)]: the server-start step.  Binding the
    socket and serving are the server's; the program's part is the
    call. *)
Definition run (app : Flask) (debug : bool) (host : string) (port : Z)
  : Py unit :=
  emit (AppRun debug host port).

End FlaskApp.

(** ** app.py *)

Module App.
Import Werkzeug FlaskApp.

Local Open Scope py_scope.

(** Line 4: [app = Flask(__name__)]; lines 6-8:
    [@app.route('/')] over [def hello(): return "Hello, ..."]. *)
Definition hello : View :=
  fun _ => ret (RvStr "Hello, World! This is version 1.0!").

Definition app (__name__ : string) : Flask :=
  route (Flask_new __name__) "/" "hello" hello.

(** Line 12, right-hand side: [int(os.environ.get("PORT", 5000))]. *)
Definition resolve_port (environ : gmap string string) : Py Z :=
  py_int (environ_get environ "PORT" (PyInt 5000)).

(** Lines 10-13: the block under [if __name__ == "__main__":]. *)
Definition main (__name__ : string) (environ : gmap string string) : Py unit :=
  if String.eqb __name__ "__main__" then
    port <- resolve_port environ ;
    store_global "port" (PyInt port) ;;
    run (app __name__) true "0.0.0.0" port
  else ret tt.

(** The process from start to the requests it has answered so far. *)
Definition process (__name__ : string) (environ : gmap string string)
  (reqs : list Request) : Py (list Response) :=
  main __name__ environ ;;
  serve_forever (app __name__) reqs.

End App.

(** ** Notions the properties are stated with *)

Module Observations.
Import Werkzeug FlaskApp App PyInt.

(** The two rules of the application's URL map. *)
Definition static_rule : Rule :=
  mkRule "/static/<path:filename>" [GET; OPTIONS; HEAD] "static" true.

Definition root_rule : Rule :=
  mkRule "/" [GET; OPTIONS; HEAD] "hello" true.

(** The world after a start-up that resolved the port [p]. *)
Definition started (w : World) (p : Z) : World :=
  mkWorld (int_max_str_digits w) (<["port" := PyInt p]> (globals w))
    (trace w ++ [Store "port" (PyInt p); AppRun true "0.0.0.0" p]).

(** The values stored under [name], oldest first. *)
Definition stores_of (name : string) (t : list Event) : list PyVal :=
  flat_map
    (fun e => match e with
              | Store n v => if String.eqb n name then [v] else []
              | AppRun _ _ _ => []
              end)
    t.

(** A port number a TCP server can listen on. *)
Definition listening_port (z : Z) : Prop := 1 <= z <= 65535.

(** The process has a server bound to [(host, p)]: the server-start step
    has run with that address, and [p] is a port number TCP has.  Whether
    the operating system grants the address (it may be taken, or
    privileged) is outside the program. *)
Definition listens_on (w : World) (host : string) (p : Z) : Prop :=
  (exists debug, In (AppRun debug host p) (trace w)) /\ listening_port p.

(** A canonical decimal port number: digits only, no leading zero, at
    most 65535. *)
Definition canonical_port_number (s : string) : bool :=
  match chars s with
  | [] => false
  | c :: r =>
      forallb (fun a => bool_decide (is_Some (digit_value a))) (c :: r) &&
      (negb (ord c =? 48) || bool_decide (r = [])) &&
      (decimal_value (omap digit_value (c :: r)) <=? 65535)
  end.

(** A process that has run nothing yet, in an interpreter with the
    default limit on digits. *)
Definition fresh : World := mkWorld 4300 ∅ [].

End Observations.

(** * Properties *)

(** ** [int] on strings against the grammar of integer literals *)

Module PyIntFacts.
Import PyInt.

Lemma ord_inj (c c' : ascii) : ord c = ord c' -> c = c'.
Proof.
  unfold ord. intros H. apply N2Z.inj in H.
  rewrite <- (ascii_N_embedding c), <- (ascii_N_embedding c').
  now f_equal.
Qed.

Lemma digit_value_Some (c : ascii) (d : Z) :
  digit_value c = Some d <-> 48 <= ord c <= 57 /\ d = ord c - 48.
Proof.
  unfold digit_value.
  destruct (Z.leb_spec 48 (ord c)) as [Hlo | Hlo],
           (Z.leb_spec (ord c) 57) as [Hhi | Hhi]; simpl;
    split; intros Hd; try discriminate; try lia.
  - injection Hd as <-. lia.
  - destruct Hd as [_ ->]. reflexivity.
Qed.

Lemma digit_value_None (c : ascii) :
  digit_value c = None <-> ord c < 48 \/ 57 < ord c.
Proof.
  unfold digit_value.
  destruct (Z.leb_spec 48 (ord c)) as [Hlo | Hlo],
           (Z.leb_spec (ord c) 57) as [Hhi | Hhi]; simpl;
    split; intros Hd; try discriminate; try lia; reflexivity.
Qed.

Lemma is_underscore_true (c : ascii) :
  is_underscore c = true <-> c = "_"%char.
Proof.
  unfold is_underscore. rewrite Z.eqb_eq. split.
  - intros H. now apply ord_inj.
  - now intros ->.
Qed.

Lemma Py_ISSPACE_true (c : ascii) :
  Py_ISSPACE c = true <-> 9 <= ord c <= 13 \/ ord c = 32.
Proof.
  unfold Py_ISSPACE.
  rewrite orb_true_iff, andb_true_iff, !Z.leb_le, Z.eqb_eq. tauto.
Qed.

Lemma Py_ISSPACE_false (c : ascii) :
  Py_ISSPACE c = false <-> ~ (9 <= ord c <= 13 \/ ord c = 32).
Proof. rewrite <- Py_ISSPACE_true. now destruct (Py_ISSPACE c). Qed.

Lemma digit_not_underscore (c : ascii) (d : Z) :
  digit_value c = Some d -> is_underscore c = false.
Proof.
  rewrite digit_value_Some. unfold is_underscore. intros [H _].
  apply Z.eqb_neq. lia.
Qed.

Lemma digit_not_space (c : ascii) (d : Z) :
  digit_value c = Some d -> Py_ISSPACE c = false.
Proof. rewrite digit_value_Some, Py_ISSPACE_false. lia. Qed.

Lemma space_not_digit (c : ascii) :
  Py_ISSPACE c = true -> digit_value c = None /\ is_underscore c = false.
Proof.
  rewrite Py_ISSPACE_true, digit_value_None. unfold is_underscore.
  intros H. split; [lia | apply Z.eqb_neq; lia].
Qed.

(** *** White space *)

Lemma skip_spaces_app (ws s : list ascii) :
  white_space ws -> skip_spaces (ws ++ s) = skip_spaces s.
Proof.
  induction 1 as [| c ws Hc _ IH]; simpl; [reflexivity |].
  now rewrite Hc.
Qed.

Lemma skip_spaces_white (ws : list ascii) :
  white_space ws -> skip_spaces ws = [].
Proof.
  intros H. rewrite <- (app_nil_r ws). now rewrite skip_spaces_app.
Qed.

Lemma skip_spaces_stop (c : ascii) (r : list ascii) :
  Py_ISSPACE c = false -> skip_spaces (c :: r) = c :: r.
Proof. simpl. now intros ->. Qed.

Lemma skip_spaces_split (s : list ascii) :
  exists ws, s = ws ++ skip_spaces s /\ white_space ws.
Proof.
  induction s as [| c r [ws [Hr Hws]]]; simpl.
  - exists []. split; [reflexivity | constructor].
  - destruct (Py_ISSPACE c) eqn:Hc.
    + exists (c :: ws). split; [simpl; now f_equal | now constructor].
    + exists []. split; [reflexivity | constructor].
Qed.

Lemma skip_spaces_head (s r : list ascii) (c : ascii) :
  skip_spaces s = c :: r -> Py_ISSPACE c = false.
Proof.
  induction s as [| a s IH]; simpl; [discriminate |].
  destruct (Py_ISSPACE a) eqn:Ha; [exact IH |].
  intros [= <- _]. exact Ha.
Qed.

(** *** The digit scanner *)

Lemma white_space_stops (ws : list ascii) : white_space ws -> stops ws.
Proof.
  destruct 1 as [| c ws Hc _]; simpl; [exact I | now apply space_not_digit].
Qed.

Lemma scan_digits_stops (prev : ascii) (rest : list ascii) :
  is_underscore prev = false -> stops rest ->
  scan_digits prev rest = Some ([], rest).
Proof.
  intros Hp. destruct rest as [| c r]; simpl.
  - now rewrite Hp.
  - intros [-> ->]. now rewrite Hp.
Qed.

Lemma scan_digits_groups (body : list ascii) (ds : list Z) :
  digit_groups body ds ->
  forall prev rest, stops rest ->
    scan_digits prev (body ++ rest) = Some (ds, rest).
Proof.
  induction 1 as [c d Hc | c d s ds Hc _ IH | c d s ds Hc _ IH];
    intros prev rest Hrest; simpl; rewrite Hc.
  - rewrite scan_digits_stops; eauto using digit_not_underscore.
  - now rewrite IH.
  - rewrite (digit_not_underscore _ _ Hc). simpl.
    now rewrite IH.
Qed.

Lemma scan_digits_inv (r : list ascii) :
  (forall c d ds rest,
      digit_value c = Some d ->
      scan_digits c r = Some (ds, rest) ->
      exists body, r = body ++ rest /\ digit_groups (c :: body) (d :: ds) /\
                   stops rest) /\
  (forall ds rest,
      scan_digits "_"%char r = Some (ds, rest) ->
      exists body, r = body ++ rest /\ digit_groups body ds /\ stops rest).
Proof.
  induction r as [| c' r' [IHd IHu]]; split.
  - intros c d ds rest Hc. simpl. rewrite (digit_not_underscore _ _ Hc).
    intros [= <- <-]. exists []. repeat split. now constructor.
  - simpl. discriminate.
  - intros c d ds rest Hc. simpl.
    destruct (digit_value c') as [d' |] eqn:Hc'.
    + destruct (scan_digits c' r') as [[ds' rest'] |] eqn:Hs; [| discriminate].
      intros [= <- <-].
      destruct (IHd _ _ _ _ Hc' Hs) as [body [-> [Hg Hst]]].
      exists (c' :: body). repeat split; [| exact Hst].
      now apply dg_digit.
    + rewrite (digit_not_underscore _ _ Hc).
      destruct (is_underscore c') eqn:Hu.
      * apply is_underscore_true in Hu. subst c'. intros Hs.
        destruct (IHu _ _ Hs) as [body [-> [Hg Hst]]].
        exists ("_"%char :: body). repeat split; [| exact Hst].
        now apply dg_underscore.
      * intros [= <- <-]. exists []. repeat split; [now constructor | |];
          assumption.
  - intros ds rest. simpl.
    destruct (digit_value c') as [d' |] eqn:Hc'.
    + destruct (scan_digits c' r') as [[ds' rest'] |] eqn:Hs; [| discriminate].
      intros [= <- <-].
      destruct (IHd _ _ _ _ Hc' Hs) as [body [-> [Hg Hst]]].
      exists (c' :: body). now repeat split.
    + destruct (is_underscore c'); discriminate.
Qed.

Lemma digit_groups_head (body : list ascii) (ds : list Z) :
  digit_groups body ds ->
  exists c d r, body = c :: r /\ digit_value c = Some d.
Proof. destruct 1; eauto. Qed.

(** *** The parser and the grammar agree *)

Lemma read_sign_inv (s str : list ascii) (sign : Z) :
  read_sign s = (sign, str) ->
  exists sg, s = sg ++ str /\ sign_prefix sg sign /\
             (sg = [] -> match str with
                         | c :: _ => ord c <> 43 /\ ord c <> 45
                         | [] => True
                         end).
Proof.
  unfold read_sign. destruct s as [| a t].
  - intros [= <- <-]. exists []. repeat split. constructor.
  - destruct (Z.eqb_spec (ord a) 43) as [Hp | Hp].
    { intros [= <- <-]. exists ["+"%char]. split; [| split].
      - simpl. f_equal. now apply ord_inj.
      - constructor.
      - discriminate. }
    destruct (Z.eqb_spec (ord a) 45) as [Hm | Hm].
    { intros [= <- <-]. exists ["-"%char]. split; [| split].
      - simpl. f_equal. now apply ord_inj.
      - constructor.
      - discriminate. }
    intros [= <- <-]. exists []. repeat split; try constructor; assumption.
Qed.

Lemma read_sign_digit (c : ascii) (d : Z) (r : list ascii) :
  digit_value c = Some d -> read_sign (c :: r) = (1, c :: r).
Proof.
  rewrite digit_value_Some. intros [Hc _]. unfold read_sign.
  destruct (Z.eqb_spec (ord c) 43); [lia |].
  destruct (Z.eqb_spec (ord c) 45); [lia | reflexivity].
Qed.

Lemma PyLong_FromString_digits (limit : nat) (c : ascii) (d : Z)
  (r ws2 : list ascii) (ds : list Z) (sign : Z) :
  digit_groups (c :: r) ds -> digit_value c = Some d -> white_space ws2 ->
  too_many_digits limit (List.length ds) = false ->
  (if is_underscore c then None
   else match scan_digits zero ((c :: r) ++ ws2) with
        | Some (ds, rest) =>
            if (List.length rest =? List.length ((c :: r) ++ ws2))%nat
            then None
            else match skip_spaces rest with
                 | [] =>
                     if too_many_digits limit (List.length ds) then None
                     else Some (sign * decimal_value ds)
                 | _ :: _ => None
                 end
        | None => None
        end) = Some (sign * decimal_value ds).
Proof.
  intros Hg Hc Hw Hlim.
  rewrite (digit_not_underscore _ _ Hc).
  rewrite (scan_digits_groups _ _ Hg) by now apply white_space_stops.
  rewrite skip_spaces_white by assumption. rewrite Hlim.
  destruct (Nat.eqb_spec (List.length ws2) (List.length ((c :: r) ++ ws2)))
    as [Hlen | _]; [| reflexivity].
  rewrite length_app in Hlen. simpl in Hlen. lia.
Qed.

(** Every integer literal is read as the integer it denotes. *)
Lemma PyLong_FromString_complete (limit : nat) (s : list ascii) (z : Z) :
  integer_literal limit s z -> PyLong_FromString limit s = Some z.
Proof.
  intros (ws1 & sg & sign & body & ds & ws2 &
          -> & Hw1 & Hw2 & Hsg & Hg & Hlim & ->).
  unfold PyLong_FromString. rewrite skip_spaces_app by assumption.
  destruct (digit_groups_head _ _ Hg) as (c & d & r & -> & Hc).
  destruct Hsg.
  - change ([] ++ (c :: r) ++ ws2) with (c :: r ++ ws2).
    rewrite skip_spaces_stop by eauto using digit_not_space.
    rewrite (read_sign_digit _ _ _ Hc).
    now apply (PyLong_FromString_digits limit c d r ws2 ds 1).
  - change (skip_spaces (["+"%char] ++ (c :: r) ++ ws2))
      with ("+"%char :: c :: r ++ ws2).
    change (read_sign ("+"%char :: c :: r ++ ws2)) with (1, c :: r ++ ws2).
    now apply (PyLong_FromString_digits limit c d r ws2 ds 1).
  - change (skip_spaces (["-"%char] ++ (c :: r) ++ ws2))
      with ("-"%char :: c :: r ++ ws2).
    change (read_sign ("-"%char :: c :: r ++ ws2)) with (-1, c :: r ++ ws2).
    now apply (PyLong_FromString_digits limit c d r ws2 ds (-1)).
Qed.

(** Whatever the parser accepts is an integer literal, and the value
    returned is the one the literal denotes. *)
Lemma PyLong_FromString_sound (limit : nat) (s : list ascii) (z : Z) :
  PyLong_FromString limit s = Some z -> integer_literal limit s z.
Proof.
  unfold PyLong_FromString.
  destruct (skip_spaces_split s) as (ws1 & Hs & Hw1).
  destruct (read_sign (skip_spaces s)) as [sign str] eqn:Hsign.
  destruct (read_sign_inv _ _ _ Hsign) as (sg & Hsg & Hpre & _).
  destruct str as [| c r]; [discriminate |].
  destruct (is_underscore c) eqn:Hu; [discriminate |].
  destruct (scan_digits zero (c :: r)) as [[ds rest] |] eqn:Hscan;
    [| discriminate].
  destruct (Nat.eqb_spec (List.length rest) (List.length (c :: r)))
    as [| Hlen]; [discriminate |].
  destruct (skip_spaces rest) eqn:Hrest; [| discriminate].
  destruct (too_many_digits limit (List.length ds)) eqn:Hlim; [discriminate |].
  intros [= <-].
  destruct (skip_spaces_split rest) as (ws2 & Hr2 & Hw2).
  rewrite Hrest, app_nil_r in Hr2. subst rest.
  simpl in Hscan. destruct (digit_value c) as [d |] eqn:Hc.
  - destruct (scan_digits c r) as [[ds' rest'] |] eqn:Hs'; [| discriminate].
    injection Hscan as <- ->.
    destruct (proj1 (scan_digits_inv r) _ _ _ _ Hc Hs') as (body & -> & Hg & _).
    exists ws1, sg, sign, (c :: body), (d :: ds'), ws2.
    repeat split; try assumption.
    rewrite Hs, Hsg. reflexivity.
  - rewrite Hu in Hscan. simpl in Hscan. injection Hscan as _ <-.
    contradiction.
Qed.

Lemma PyLong_FromString_iff (limit : nat) (s : list ascii) (z : Z) :
  PyLong_FromString limit s = Some z <-> integer_literal limit s z.
Proof.
  split; [apply PyLong_FromString_sound | apply PyLong_FromString_complete].
Qed.

Example int_decimal : PyLong_FromUnicodeObject 4300 "8080" = Some 8080.
Proof. reflexivity. Qed.

Example int_leading_zeros : PyLong_FromUnicodeObject 4300 "007" = Some 7.
Proof. reflexivity. Qed.

Example int_underscore : PyLong_FromUnicodeObject 4300 "65_535" = Some 65535.
Proof. reflexivity. Qed.

Example int_no_break_space :
  PyLong_FromUnicodeObject 4300 (String (ascii_of_nat 160) "80") = Some 80.
Proof. reflexivity. Qed.

Example int_rejects_empty : PyLong_FromUnicodeObject 4300 "" = None.
Proof. reflexivity. Qed.

Example int_rejects_doubled_underscore :
  PyLong_FromUnicodeObject 4300 "1__0" = None.
Proof. reflexivity. Qed.

Example int_rejects_space_after_sign :
  PyLong_FromUnicodeObject 4300 "+ 5" = None.
Proof. reflexivity. Qed.

Example int_rejects_fraction : PyLong_FromUnicodeObject 4300 "80.0" = None.
Proof. reflexivity. Qed.

Lemma int_valid_integer_string (limit : nat) (u : string) (z : Z) :
  PyLong_FromUnicodeObject limit u = Some z <-> valid_integer_string limit u z.
Proof. apply PyLong_FromString_iff. Qed.

Lemma int_rejects (limit : nat) (u : string) :
  PyLong_FromUnicodeObject limit u = None <->
  forall z, ~ valid_integer_string limit u z.
Proof.
  split.
  - intros H z Hz. apply int_valid_integer_string in Hz. congruence.
  - intros H. destruct (PyLong_FromUnicodeObject limit u) as [z |] eqn:Hu;
      [| reflexivity].
    apply int_valid_integer_string in Hu. now apply H in Hu.
Qed.

End PyIntFacts.

(** ** The application's URL map and request dispatch *)

Module DispatchFacts.
Import Werkzeug FlaskApp App Observations.

Lemma url_map_Flask_new (name : string) :
  url_map (Flask_new name) = [static_rule].
Proof. reflexivity. Qed.

Lemma url_map_app (name : string) :
  url_map (app name) = [static_rule; root_rule].
Proof. reflexivity. Qed.

Lemma view_functions_app (name : string) (e : string) :
  view_functions (app name) !! e =
    if String.eqb e "hello" then Some hello
    else if String.eqb e "static" then Some send_static_file
    else None.
Proof.
  unfold app, route, Flask_new, add_url_rule. simpl view_functions.
  destruct (String.eqb_spec e "hello") as [-> | Hh].
  { apply lookup_insert_eq. }
  rewrite lookup_insert_ne by congruence.
  destruct (String.eqb_spec e "static") as [-> | Hs].
  { apply lookup_insert_eq. }
  rewrite lookup_insert_ne by congruence.
  apply lookup_empty.
Qed.

Lemma view_functions_Flask_new (name : string) (e : string) :
  view_functions (Flask_new name) !! e =
    if String.eqb e "static" then Some send_static_file else None.
Proof.
  unfold Flask_new, add_url_rule. simpl view_functions.
  destruct (String.eqb_spec e "static") as [-> | Hs].
  { apply lookup_insert_eq. }
  rewrite lookup_insert_ne by congruence.
  apply lookup_empty.
Qed.

(** The rule ["/"] matches the root path and nothing else. *)
Lemma match_root (p : string) :
  match_pattern (compile_rule "/") p = true <-> p = "/".
Proof.
  change (compile_rule "/") with (Exact "/"). unfold match_pattern.
  rewrite String.eqb_eq. split; congruence.
Qed.

Lemma match_root_false (p : string) :
  p <> "/" -> match_pattern (compile_rule "/") p = false.
Proof.
  intros Hp. destruct (match_pattern (compile_rule "/") p) eqn:E;
    [| reflexivity].
  now apply match_root in E.
Qed.

Example get_root :
  fst (wsgi_app (app "__main__") (mkRequest GET "/" "" [] "") fresh) =
  Ok (mkResponse 200 "text/html" [] "Hello, World! This is version 1.0!").
Proof. reflexivity. Qed.

Example get_missing :
  fst (wsgi_app (app "__main__") (mkRequest GET "/missing" "" [] "") fresh) =
  Ok (get_response NotFound).
Proof. reflexivity. Qed.

Example post_static :
  fst (wsgi_app (app "__main__") (mkRequest POST "/static/x" "" [] "") fresh) =
  Ok (get_response (MethodNotAllowed [GET; OPTIONS; HEAD])).
Proof. reflexivity. Qed.

Example head_missing :
  fst (wsgi_app (app "__main__") (mkRequest HEAD "/missing" "" [] "") fresh) =
  Ok (mkResponse 404 "text/html" [] EmptyString).
Proof. reflexivity. Qed.

(** Requests to the root path, by method. *)
Lemma wsgi_app_root (name : string) (req : Request) (w : World) :
  path req = "/" ->
  wsgi_app (app name) req w =
    (Ok match method req with
        | GET => mkResponse 200 "text/html" []
                   "Hello, World! This is version 1.0!"
        | HEAD => mkResponse 200 "text/html" [] EmptyString
        | OPTIONS => mkResponse 200 "text/html" [GET; OPTIONS; HEAD] EmptyString
        | _ => get_response (MethodNotAllowed [GET; OPTIONS; HEAD])
        end, w).
Proof.
  destruct req as [m p q h d]. simpl. intros ->.
  destruct m; reflexivity.
Qed.

(** Off the root path the rule of [hello] plays no part: the
    application answers as [Flask(__name__)] alone would. *)
Lemma wsgi_app_elsewhere (name : string) (req : Request) (w : World) :
  path req <> "/" ->
  wsgi_app (app name) req w = wsgi_app (Flask_new name) req w.
Proof.
  intros Hp. apply match_root_false in Hp.
  unfold wsgi_app, full_dispatch_request, dispatch_request,
    make_default_options_response, allowed_methods.
  rewrite url_map_app, url_map_Flask_new.
  cbn [match_rules flat_map static_rule root_rule rule methods endpoint
       provide_automatic_options app].
  rewrite Hp.
  destruct (match_pattern (compile_rule "/static/<path:filename>") (path req));
    destruct (method req); reflexivity.
Qed.

(** What [Flask(__name__)] alone answers: never the greeting. *)
Lemma wsgi_app_Flask_new (name : string) (req : Request) (w : World) :
  exists resp,
    wsgi_app (Flask_new name) req w = (Ok resp, w) /\
    get_data resp <> "Hello, World! This is version 1.0!".
Proof.
  unfold wsgi_app, full_dispatch_request, dispatch_request,
    make_default_options_response, allowed_methods.
  rewrite url_map_Flask_new.
  cbn [match_rules flat_map static_rule rule methods endpoint
       provide_automatic_options].
  destruct (match_pattern (compile_rule "/static/<path:filename>") (path req));
    destruct (method req); eexists; (split; [reflexivity | discriminate]).
Qed.

End DispatchFacts.

(** ** Start-up and the serving loop *)

Module StartupFacts.
Import Werkzeug FlaskApp App Observations DispatchFacts.

Lemma resolve_port_unset (environ : gmap string string) (w : World) :
  environ !! "PORT" = None -> resolve_port environ w = (Ok 5000, w).
Proof. unfold resolve_port, environ_get. now intros ->. Qed.

Lemma resolve_port_set (environ : gmap string string) (s : string) (w : World) :
  environ !! "PORT" = Some s ->
  resolve_port environ w =
    (match PyInt.PyLong_FromUnicodeObject (int_max_str_digits w) s with
     | Some z => Ok z
     | None => Raise (ValueError s)
     end, w).
Proof.
  unfold resolve_port, environ_get. intros ->. unfold py_int.
  now destruct (PyInt.PyLong_FromUnicodeObject (int_max_str_digits w) s).
Qed.

Lemma main_started (environ : gmap string string) (w : World) (p : Z) :
  resolve_port environ w = (Ok p, w) ->
  main "__main__" environ w = (Ok tt, started w p).
Proof.
  intros Hp. unfold main. change ("__main__" =? "__main__")%string with true.
  cbv iota. unfold bind. rewrite Hp.
  unfold store_global, run, emit, started. simpl.
  now rewrite <- app_assoc.
Qed.

Lemma main_raised (environ : gmap string string) (w : World) (e : Exc) :
  resolve_port environ w = (Raise e, w) ->
  main "__main__" environ w = (Raise e, w).
Proof.
  intros Hp. unfold main. change ("__main__" =? "__main__")%string with true.
  cbv iota. unfold bind. now rewrite Hp.
Qed.

(** Every request is answered, and answering leaves the world as it
    was. *)
Lemma wsgi_app_frame (name : string) (req : Request) (w : World) :
  exists resp, wsgi_app (app name) req w = (Ok resp, w).
Proof.
  destruct (String.string_dec (path req) "/") as [Hp | Hp].
  - rewrite (wsgi_app_root _ _ _ Hp). eauto.
  - rewrite (wsgi_app_elsewhere _ _ _ Hp).
    destruct (wsgi_app_Flask_new name req w) as (resp & H & _). eauto.
Qed.

Lemma handle_request_frame (name : string) (req : Request) (w : World) :
  exists resp, handle_request (app name) req w = (Ok resp, w).
Proof.
  unfold handle_request.
  destruct (wsgi_app_frame name req w) as (resp & ->). eauto.
Qed.

Lemma serve_forever_frame (name : string) (reqs : list Request) (w : World) :
  exists resps,
    serve_forever (app name) reqs w = (Ok resps, w) /\
    List.length resps = List.length reqs.
Proof.
  induction reqs as [| req rest (resps & IH & Hlen)]; simpl.
  - exists []. split; reflexivity.
  - destruct (handle_request_frame name req w) as (resp & Hresp).
    exists (resp :: resps). unfold bind. rewrite Hresp, IH. simpl.
    split; [reflexivity | now f_equal].
Qed.

End StartupFacts.

(** ** The specification's statements *)

Import Werkzeug FlaskApp App Observations.
Import PyInt PyIntFacts DispatchFacts StartupFacts.

Lemma listens_on_started (w : World) (p : Z) :
  listening_port p -> listens_on (started w p) "0.0.0.0" p.
Proof.
  intros Hp. split; [| exact Hp]. exists true. unfold started. simpl.
  apply in_or_app. right. simpl. auto.
Qed.

Lemma listens_on_port (w : World) (host : string) (p : Z) :
  listens_on w host p -> listening_port p.
Proof. now intros [_ Hp]. Qed.

(** C1.  A GET request to the root path, whatever its query string,
    headers and body, is dispatched to [hello], which returns the
    greeting; the response has status 200 and exactly that body. *)
Theorem hello_get_root (name : string) (req : Request) (w : World) :
  method req = GET -> path req = "/" ->
  hello req w = (Ok (RvStr "Hello, World! This is version 1.0!"), w) /\
  wsgi_app (app name) req w =
    (Ok (mkResponse 200 "text/html" [] "Hello, World! This is version 1.0!"),
     w).
Proof.
  intros Hm Hp. split; [reflexivity |].
  rewrite (wsgi_app_root _ _ _ Hp), Hm. reflexivity.
Qed.

Lemma hello_get_root_witness :
  method (mkRequest GET "/" "lang=en" [("Accept", "text/html")] "x") = GET /\
  path (mkRequest GET "/" "lang=en" [("Accept", "text/html")] "x") = "/" /\
  wsgi_app (app "__main__")
    (mkRequest GET "/" "lang=en" [("Accept", "text/html")] "x") fresh =
    (Ok (mkResponse 200 "text/html" [] "Hello, World! This is version 1.0!"),
     fresh).
Proof.
  split; [reflexivity | split; [reflexivity |]].
  apply (hello_get_root "__main__"
           (mkRequest GET "/" "lang=en" [("Accept", "text/html")] "x") fresh);
    reflexivity.
Defined.

(** C2.  With PORT unset the port resolution step yields 5000, and the
    server-start step runs with host 0.0.0.0 and port 5000: the server
    binds to port 5000. *)
Theorem port_default_5000 (environ : gmap string string) (w : World) :
  environ !! "PORT" = None ->
  resolve_port environ w = (Ok 5000, w) /\
  main "__main__" environ w =
    (Ok tt,
     mkWorld (int_max_str_digits w) (<["port" := PyInt 5000]> (globals w))
       (trace w ++ [Store "port" (PyInt 5000); AppRun true "0.0.0.0" 5000])) /\
  listens_on (snd (main "__main__" environ w)) "0.0.0.0" 5000.
Proof.
  intros Hunset. pose proof (resolve_port_unset environ w Hunset) as Hp.
  pose proof (main_started _ _ _ Hp) as Hmain.
  split; [exact Hp | split; [exact Hmain |]].
  rewrite Hmain. apply listens_on_started. unfold listening_port. lia.
Qed.

Lemma port_default_5000_witness :
  (∅ : gmap string string) !! "PORT" = None /\
  main "__main__" ∅ fresh =
    (Ok tt,
     mkWorld 4300 (<["port" := PyInt 5000]> ∅)
       [Store "port" (PyInt 5000); AppRun true "0.0.0.0" 5000]).
Proof.
  split; [reflexivity |].
  apply (port_default_5000 ∅ fresh). reflexivity.
Defined.

(** C3, as the specification states it, fails: ["-1"] is a valid integer
    string and the port resolution step yields -1, but no server binds to
    a port -1. *)
Lemma port_minus_one_not_bound :
  ({["PORT" := "-1"]} : gmap string string) !! "PORT" = Some "-1" /\
  valid_integer_string 4300 "-1" (-1) /\
  resolve_port {["PORT" := "-1"]} fresh = (Ok (-1), fresh) /\
  ~ listens_on (snd (main "__main__" {["PORT" := "-1"]} fresh)) "0.0.0.0" (-1).
Proof.
  split; [reflexivity |].
  split; [apply int_valid_integer_string; reflexivity |].
  split; [reflexivity |].
  intros H. apply listens_on_port in H. unfold listening_port in H. lia.
Qed.

(** C3, amended.  When PORT holds a valid integer string, the port
    resolution step yields the integer the string denotes and the
    server-start step runs with that integer in place of the default; the
    server binds to that port when the integer is a TCP port number
    (1..65535). *)
Theorem port_from_environment (environ : gmap string string) (s : string)
  (z : Z) (w : World) :
  environ !! "PORT" = Some s ->
  valid_integer_string (int_max_str_digits w) s z ->
  resolve_port environ w = (Ok z, w) /\
  main "__main__" environ w =
    (Ok tt,
     mkWorld (int_max_str_digits w) (<["port" := PyInt z]> (globals w))
       (trace w ++ [Store "port" (PyInt z); AppRun true "0.0.0.0" z])) /\
  (listening_port z ->
   listens_on (snd (main "__main__" environ w)) "0.0.0.0" z).
Proof.
  intros Hset Hvalid. apply int_valid_integer_string in Hvalid.
  pose proof (resolve_port_set environ s w Hset) as Hp.
  rewrite Hvalid in Hp.
  pose proof (main_started _ _ _ Hp) as Hmain.
  split; [exact Hp | split; [exact Hmain |]].
  intros Hz. rewrite Hmain. now apply listens_on_started.
Qed.

Lemma port_from_environment_witness :
  ({["PORT" := "8080"]} : gmap string string) !! "PORT" = Some "8080" /\
  valid_integer_string 4300 "8080" 8080 /\
  main "__main__" {["PORT" := "8080"]} fresh =
    (Ok tt,
     mkWorld 4300 (<["port" := PyInt 8080]> ∅)
       [Store "port" (PyInt 8080); AppRun true "0.0.0.0" 8080]) /\
  listens_on (snd (main "__main__" {["PORT" := "8080"]} fresh)) "0.0.0.0" 8080.
Proof.
  assert (Hv : valid_integer_string 4300 "8080" 8080)
    by (apply int_valid_integer_string; reflexivity).
  assert (Hset : ({["PORT" := "8080"]} : gmap string string) !! "PORT" =
                 Some "8080") by reflexivity.
  split; [exact Hset | split; [exact Hv |]].
  destruct (port_from_environment {["PORT" := "8080"]} "8080" 8080 fresh
              Hset Hv) as (_ & Hmain & Hlistens).
  split; [exact Hmain |].
  apply Hlistens. unfold listening_port. lia.
Defined.

(** C4.  When PORT holds a string that [int] does not parse, start-up
    raises the [ValueError] and ends there: the server-start step does not
    run, so no socket is bound that was not bound before, no request is
    served, and the process state is as it was. *)
Theorem port_parse_failure (environ : gmap string string) (s : string)
  (w : World) (reqs : list Request) :
  environ !! "PORT" = Some s ->
  PyLong_FromUnicodeObject (int_max_str_digits w) s = None ->
  main "__main__" environ w = (Raise (ValueError s), w) /\
  process "__main__" environ reqs w = (Raise (ValueError s), w) /\
  (forall host p,
      listens_on (snd (process "__main__" environ reqs w)) host p ->
      listens_on w host p).
Proof.
  intros Hset Hbad.
  pose proof (resolve_port_set environ s w Hset) as Hp. rewrite Hbad in Hp.
  pose proof (main_raised _ _ _ Hp) as Hmain.
  assert (Hproc : process "__main__" environ reqs w = (Raise (ValueError s), w))
    by (unfold process, bind; now rewrite Hmain).
  split; [exact Hmain | split; [exact Hproc |]].
  intros host p. now rewrite Hproc.
Qed.

Lemma port_parse_failure_witness :
  ({["PORT" := "abc"]} : gmap string string) !! "PORT" = Some "abc" /\
  PyLong_FromUnicodeObject 4300 "abc" = None /\
  main "__main__" {["PORT" := "abc"]} fresh = (Raise (ValueError "abc"), fresh).
Proof.
  split; [reflexivity | split; [reflexivity |]].
  apply (port_parse_failure {["PORT" := "abc"]} "abc" fresh []); reflexivity.
Defined.

(** C5.  A request to any path other than the root path is answered as
    the framework answers it when no route has been declared, and the
    body of that answer is not the greeting. *)
Theorem other_paths_framework_default (name : string) (req : Request)
  (w : World) :
  path req <> "/" ->
  exists resp,
    wsgi_app (app name) req w = (Ok resp, w) /\
    wsgi_app (Flask_new name) req w = (Ok resp, w) /\
    get_data resp <> "Hello, World! This is version 1.0!".
Proof.
  intros Hp. destruct (wsgi_app_Flask_new name req w) as (resp & Hresp & Hbody).
  exists resp. rewrite (wsgi_app_elsewhere _ _ _ Hp). auto.
Qed.

Lemma other_paths_framework_default_witness :
  path (mkRequest GET "/missing" "" [] "") <> "/" /\
  exists resp,
    wsgi_app (app "__main__") (mkRequest GET "/missing" "" [] "") fresh =
      (Ok resp, fresh) /\
    wsgi_app (Flask_new "__main__") (mkRequest GET "/missing" "" [] "") fresh =
      (Ok resp, fresh) /\
    get_data resp <> "Hello, World! This is version 1.0!".
Proof.
  split; [discriminate |].
  apply (other_paths_framework_default "__main__"
           (mkRequest GET "/missing" "" [] "") fresh).
  discriminate.
Defined.

(** C6.  The answer to a GET request for the root path does not depend on
    the request's query string, headers or body, nor on the process
    state: any two such requests get the same return value from [hello]
    and the same response. *)
Theorem hello_independent_of_request (name : string) (req1 req2 : Request)
  (w1 w2 : World) :
  method req1 = GET -> path req1 = "/" ->
  method req2 = GET -> path req2 = "/" ->
  fst (hello req1 w1) = fst (hello req2 w2) /\
  fst (wsgi_app (app name) req1 w1) = fst (wsgi_app (app name) req2 w2).
Proof.
  intros Hm1 Hp1 Hm2 Hp2. split; [reflexivity |].
  rewrite (wsgi_app_root _ _ _ Hp1), (wsgi_app_root _ _ _ Hp2), Hm1, Hm2.
  reflexivity.
Qed.

Lemma hello_independent_of_request_witness :
  fst (wsgi_app (app "__main__")
         (mkRequest GET "/" "a=1" [("Cookie", "k=v")] "") fresh) =
  fst (wsgi_app (app "__main__")
         (mkRequest GET "/" "" [] "payload") (mkWorld 0 ∅ [AppRun true "h" 1])).
Proof.
  apply (hello_independent_of_request "__main__"
           (mkRequest GET "/" "a=1" [("Cookie", "k=v")] "")
           (mkRequest GET "/" "" [] "payload")
           fresh (mkWorld 0 ∅ [AppRun true "h" 1])); reflexivity.
Defined.

(** C7.  [hello] returns its fixed string for every request and every
    process state: it does not raise, and it leaves the namespace and the
    trace of effects as they were.  The same holds for the whole dispatch
    of any request by the application. *)
Theorem hello_no_side_effect (req : Request) (w : World) :
  hello req w = (Ok (RvStr "Hello, World! This is version 1.0!"), w) /\
  forall name, exists resp, wsgi_app (app name) req w = (Ok resp, w).
Proof.
  split; [reflexivity |]. intros name. apply wsgi_app_frame.
Qed.

(** C8.  A successful start-up changes the process state in one place:
    it stores the resolved port, a function of PORT alone, under [port],
    exactly once, and starts the server with it.  Neither a call of
    [hello] nor any number of turns of the serving loop changes the state
    after that. *)
Theorem port_resolved_once_and_fixed (environ : gmap string string)
  (w0 w : World) :
  main "__main__" environ w0 = (Ok tt, w) ->
  exists p,
    py_int (environ_get environ "PORT" (PyInt 5000)) w0 = (Ok p, w0) /\
    globals w = <["port" := PyInt p]> (globals w0) /\
    trace w = trace w0 ++ [Store "port" (PyInt p); AppRun true "0.0.0.0" p] /\
    stores_of "port" (trace w) = stores_of "port" (trace w0) ++ [PyInt p] /\
    (forall req, snd (hello req w) = w) /\
    (forall reqs, snd (serve_forever (app "__main__") reqs w) = w).
Proof.
  intros Hmain.
  assert (Hp : exists p, resolve_port environ w0 = (Ok p, w0)).
  { destruct (environ !! "PORT") as [s |] eqn:Hset.
    - pose proof (resolve_port_set environ s w0 Hset) as Hp.
      destruct (PyLong_FromUnicodeObject (int_max_str_digits w0) s)
        as [z |]; [eauto |].
      rewrite (main_raised _ _ _ Hp) in Hmain. discriminate.
    - rewrite (resolve_port_unset environ w0 Hset). eauto. }
  destruct Hp as (p & Hp). exists p.
  rewrite (main_started _ _ _ Hp) in Hmain. injection Hmain as <-.
  repeat split; try exact Hp.
  { unfold started, stores_of. simpl trace. now rewrite flat_map_app. }
  intros reqs.
  destruct (serve_forever_frame "__main__" reqs (started w0 p)) as (r & -> & _).
  reflexivity.
Qed.

Lemma port_resolved_once_and_fixed_witness :
  main "__main__" {["PORT" := "8080"]} fresh =
    (Ok tt,
     mkWorld 4300 (<["port" := PyInt 8080]> ∅)
       [Store "port" (PyInt 8080); AppRun true "0.0.0.0" 8080]) /\
  exists p,
    py_int (environ_get {["PORT" := "8080"]} "PORT" (PyInt 5000)) fresh =
      (Ok p, fresh) /\
    forall reqs,
      snd (serve_forever (app "__main__") reqs
             (mkWorld 4300 (<["port" := PyInt 8080]> ∅)
                [Store "port" (PyInt 8080); AppRun true "0.0.0.0" 8080])) =
      mkWorld 4300 (<["port" := PyInt 8080]> ∅)
        [Store "port" (PyInt 8080); AppRun true "0.0.0.0" 8080].
Proof.
  assert (Hmain : main "__main__" {["PORT" := "8080"]} fresh =
                    (Ok tt,
                     mkWorld 4300 (<["port" := PyInt 8080]> ∅)
                       [Store "port" (PyInt 8080);
                        AppRun true "0.0.0.0" 8080]))
    by reflexivity.
  split; [exact Hmain |].
  destruct (port_resolved_once_and_fixed {["PORT" := "8080"]} fresh _ Hmain)
    as (p & Hp & _ & _ & _ & _ & Hserve).
  exists p. split; [exact Hp | exact Hserve].
Defined.

(** C9.  The port parse step is [int] itself: it accepts every string
    [int] accepts.  So ["-1"], [" 8080 "] and ["99999"], none of them a
    canonical decimal port number, pass it without a [ValueError], and
    start-up goes on to the server-start step with -1, 8080 and 99999, of
    which the first and the last are no port a server can listen on. *)
Theorem int_accepts_noncanonical_ports (environ : gmap string string)
  (w : World) :
  (forall s,
      resolve_port (<["PORT" := s]> environ) w =
        (match PyLong_FromUnicodeObject (int_max_str_digits w) s with
         | Some z => Ok z
         | None => Raise (ValueError s)
         end, w)) /\
  (canonical_port_number "-1" = false /\ ~ listening_port (-1) /\
   main "__main__" (<["PORT" := "-1"]> environ) w = (Ok tt, started w (-1))) /\
  (canonical_port_number " 8080 " = false /\
   main "__main__" (<["PORT" := " 8080 "]> environ) w =
     (Ok tt, started w 8080)) /\
  (canonical_port_number "99999" = false /\ ~ listening_port 99999 /\
   main "__main__" (<["PORT" := "99999"]> environ) w =
     (Ok tt, started w 99999)).
Proof.
  assert (Hres : forall s,
             resolve_port (<["PORT" := s]> environ) w =
               (match PyLong_FromUnicodeObject (int_max_str_digits w) s with
                | Some z => Ok z
                | None => Raise (ValueError s)
                end, w)).
  { intros s. apply resolve_port_set. apply lookup_insert_eq. }
  split; [exact Hres |].
  unfold listening_port.
  repeat split; try reflexivity; try lia;
    apply main_started; rewrite Hres; reflexivity.
Qed.

(** C10.  The rule of [hello] is registered without a method list, so it
    allows GET, HEAD and OPTIONS.  On the root path a HEAD request gets
    status 200 and an empty body, an OPTIONS request gets the framework's
    own answer listing the three methods, and a request of any other
    method but GET gets the framework's method-not-allowed response. *)
Theorem root_route_methods (name : string) (req : Request) (w : World) :
  path req = "/" ->
  allowed_methods (url_map (app name)) "/" = [GET; OPTIONS; HEAD] /\
  (method req = HEAD ->
   wsgi_app (app name) req w =
     (Ok (mkResponse 200 "text/html" [] EmptyString), w)) /\
  (method req = OPTIONS ->
   wsgi_app (app name) req w =
     (Ok (mkResponse 200 "text/html" [GET; OPTIONS; HEAD] EmptyString), w)) /\
  (method req <> GET -> method req <> HEAD -> method req <> OPTIONS ->
   wsgi_app (app name) req w =
     (Ok (get_response (MethodNotAllowed [GET; OPTIONS; HEAD])), w) /\
   status_code (get_response (MethodNotAllowed [GET; OPTIONS; HEAD])) = 405).
Proof.
  intros Hp. rewrite (wsgi_app_root _ _ _ Hp).
  split; [reflexivity |].
  repeat split; try (intros ->; reflexivity).
  destruct (method req); try reflexivity; contradiction.
Qed.

Lemma root_route_methods_witness :
  path (mkRequest POST "/" "" [] "x=1") = "/" /\
  wsgi_app (app "__main__") (mkRequest HEAD "/" "" [] "") fresh =
    (Ok (mkResponse 200 "text/html" [] EmptyString), fresh) /\
  wsgi_app (app "__main__") (mkRequest POST "/" "" [] "x=1") fresh =
    (Ok (get_response (MethodNotAllowed [GET; OPTIONS; HEAD])), fresh).
Proof.
  split; [reflexivity | split].
  - apply (root_route_methods "__main__" (mkRequest HEAD "/" "" [] "") fresh);
      reflexivity.
  - apply (root_route_methods "__main__" (mkRequest POST "/" "" [] "x=1") fresh);
      [reflexivity | discriminate | discriminate | discriminate].
Defined.

(** * Further properties of the program

    What the statements above leave open about the same lines: the guard
    on [__name__], the outcomes of start-up, how line 12 reads the
    shapes a PORT value can take, and how the one route answers every
    method and path. *)

From Stdlib Require Import Decimal DecimalString DecimalN.

(** ** More on [int] *)

Module IntFurther.
Import PyInt PyIntFacts.

Lemma chars_app (s1 s2 : string) : chars (s1 +:+ s2) = chars s1 ++ chars s2.
Proof.
  unfold chars. induction s1 as [| a s1 IH]; simpl; [reflexivity |].
  now f_equal.
Qed.

(** Characters the transformation leaves alone. *)
Definition plain (l : list ascii) : Prop := Forall (fun c => ord c < 127) l.

Lemma white_space_plain (ws : list ascii) : white_space ws -> plain ws.
Proof.
  unfold white_space, plain. intros H. eapply Forall_impl; [exact H |].
  intros c Hc. simpl in Hc. apply Py_ISSPACE_true in Hc. lia.
Qed.

Lemma PyUnicode_IS_ASCII_app (l m : list ascii) :
  PyUnicode_IS_ASCII (l ++ m) = PyUnicode_IS_ASCII l && PyUnicode_IS_ASCII m.
Proof. apply forallb_app. Qed.

Lemma plain_IS_ASCII (l : list ascii) : plain l -> PyUnicode_IS_ASCII l = true.
Proof.
  induction 1 as [| c l Hc _ IH]; simpl; [reflexivity |].
  rewrite IH, andb_true_r. apply Z.ltb_lt. lia.
Qed.

Lemma transform_loop_plain (pre l : list ascii) :
  plain pre -> transform_loop (pre ++ l) = pre ++ transform_loop l.
Proof.
  induction 1 as [| c pre Hc _ IH]; simpl; [reflexivity |].
  apply Z.ltb_lt in Hc. now rewrite Hc, IH.
Qed.

Lemma transform_plain_prefix (pre l : list ascii) :
  plain pre ->
  _PyUnicode_TransformDecimalAndSpaceToASCII (pre ++ l) =
  pre ++ _PyUnicode_TransformDecimalAndSpaceToASCII l.
Proof.
  intros Hpre. unfold _PyUnicode_TransformDecimalAndSpaceToASCII.
  rewrite PyUnicode_IS_ASCII_app, (plain_IS_ASCII _ Hpre). simpl.
  destruct (PyUnicode_IS_ASCII l); [reflexivity |].
  now apply transform_loop_plain.
Qed.

Lemma transform_loop_app (l m : list ascii) :
  transform_loop (l ++ m) = transform_loop l ++ transform_loop m \/
  transform_loop (l ++ m) = transform_loop l.
Proof.
  induction l as [| c l [IH | IH]]; simpl; [now left | |];
    destruct (ord c <? 127); try (rewrite IH; now auto);
    destruct (Py_UNICODE_ISSPACE c); try (rewrite IH; now auto); now right.
Qed.

Lemma transform_plain_suffix (l ws : list ascii) :
  plain ws ->
  _PyUnicode_TransformDecimalAndSpaceToASCII (l ++ ws) =
    _PyUnicode_TransformDecimalAndSpaceToASCII l ++ ws \/
  _PyUnicode_TransformDecimalAndSpaceToASCII (l ++ ws) =
    _PyUnicode_TransformDecimalAndSpaceToASCII l.
Proof.
  intros Hws. unfold _PyUnicode_TransformDecimalAndSpaceToASCII.
  rewrite PyUnicode_IS_ASCII_app, (plain_IS_ASCII _ Hws), andb_true_r.
  destruct (PyUnicode_IS_ASCII l); [now left |].
  destruct (transform_loop_app l ws) as [H | H]; [left | now right].
  rewrite H. f_equal.
  rewrite <- (app_nil_r ws) at 1. rewrite transform_loop_plain by assumption.
  simpl. now rewrite app_nil_r.
Qed.

(** *** Trailing white space *)

Lemma digit_groups_last (body : list ascii) (ds : list Z) :
  digit_groups body ds ->
  exists body' c d, body = body' ++ [c] /\ digit_value c = Some d.
Proof.
  induction 1 as [c d Hc | c d s ds Hc _ (b & c' & d' & -> & Hc')
                 | c d s ds Hc _ (b & c' & d' & -> & Hc')].
  - exists [], c, d. auto.
  - exists (c :: b), c', d'. auto.
  - exists (c :: "_"%char :: b), c', d'. auto.
Qed.

Lemma integer_literal_trailing (limit : nat) (t ws : list ascii) (z : Z) :
  white_space ws ->
  integer_literal limit (t ++ ws) z <-> integer_literal limit t z.
Proof.
  intros Hws. split.
  - intros (ws1 & sg & sign & body & ds & ws2 &
            E & Hw1 & Hw2 & Hsg & Hg & Hl & ->).
    destruct (digit_groups_last _ _ Hg) as (body' & c & d & -> & Hc).
    rewrite !app_assoc in E.
    apply app_eq_app in E. destruct E as (l & [[Ht Hw] | [Ht Hw]]).
    + subst ws2. apply Forall_app in Hw2. destruct Hw2 as [Hl' _].
      exists ws1, sg, sign, (body' ++ [c]), ds, l.
      repeat split; try assumption. rewrite Ht, !app_assoc. reflexivity.
    + subst ws. apply Forall_app in Hws. destruct Hws as [Hl' _].
      destruct (list_eq_nil_dec l) as [-> | Hne].
      * rewrite app_nil_r in Ht.
        exists ws1, sg, sign, (body' ++ [c]), ds, [].
        repeat split; try assumption; try (now constructor).
        rewrite <- Ht, app_nil_r, !app_assoc. reflexivity.
      * destruct (exists_last Hne) as (l' & a & ->).
        rewrite !app_assoc in Ht. apply app_inj_tail in Ht.
        destruct Ht as [_ <-].
        apply Forall_app in Hl'. destruct Hl' as [_ Ha].
        inversion Ha as [| ? ? Hsp _]; subst.
        rewrite (digit_not_space _ _ Hc) in Hsp. discriminate.
  - intros (ws1 & sg & sign & body & ds & ws2 &
            -> & Hw1 & Hw2 & Hsg & Hg & Hl & ->).
    exists ws1, sg, sign, body, ds, (ws2 ++ ws).
    repeat split; try assumption.
    + rewrite <- !app_assoc. reflexivity.
    + apply Forall_app; auto.
Qed.

Lemma option_iff_eq (o1 o2 : option Z) :
  (forall z, o1 = Some z <-> o2 = Some z) -> o1 = o2.
Proof.
  intros H. destruct o1 as [z1 |], o2 as [z2 |]; try reflexivity.
  - symmetry. now apply H.
  - specialize (H z1). destruct H as [H _]. now specialize (H eq_refl).
  - specialize (H z2). destruct H as [_ H]. now specialize (H eq_refl).
Qed.

Lemma PyLong_FromString_trailing (limit : nat) (t ws : list ascii) :
  white_space ws ->
  PyLong_FromString limit (t ++ ws) = PyLong_FromString limit t.
Proof.
  intros Hws. apply option_iff_eq. intros z.
  rewrite !PyLong_FromString_iff. now apply integer_literal_trailing.
Qed.

Lemma PyLong_FromString_leading (limit : nat) (ws t : list ascii) :
  white_space ws ->
  PyLong_FromString limit (ws ++ t) = PyLong_FromString limit t.
Proof.
  intros Hws. unfold PyLong_FromString. now rewrite skip_spaces_app.
Qed.

Lemma int_surrounding_white_space (limit : nat) (ws1 s ws2 : string) :
  white_space (chars ws1) -> white_space (chars ws2) ->
  PyLong_FromUnicodeObject limit (ws1 +:+ s +:+ ws2) =
  PyLong_FromUnicodeObject limit s.
Proof.
  intros H1 H2. unfold PyLong_FromUnicodeObject. rewrite !chars_app.
  rewrite transform_plain_prefix by now apply white_space_plain.
  rewrite PyLong_FromString_leading by assumption.
  destruct (transform_plain_suffix (chars s) (chars ws2)
              (white_space_plain _ H2)) as [-> | ->]; [| reflexivity].
  now apply PyLong_FromString_trailing.
Qed.

(** *** Blank strings *)

Lemma int_blank (limit : nat) (s : string) :
  white_space (chars s) -> PyLong_FromUnicodeObject limit s = None.
Proof.
  intros Hs. unfold PyLong_FromUnicodeObject.
  rewrite <- (app_nil_r (chars s)).
  rewrite transform_plain_prefix by now apply white_space_plain.
  rewrite PyLong_FromString_leading by assumption. reflexivity.
Qed.

(** *** The alphabet of integer literals *)

(** The characters [int] can accept after the transformation. *)
Definition lexical (c : ascii) : bool :=
  Py_ISSPACE c || bool_decide (is_Some (digit_value c)) || is_underscore c ||
  (ord c =? 43) || (ord c =? 45).

(** The same before the transformation: the two white-space characters
    above 127 count as well. *)
Definition int_alphabet (c : ascii) : bool :=
  lexical c || Py_UNICODE_ISSPACE c.

Lemma lexical_space (c : ascii) : Py_ISSPACE c = true -> lexical c = true.
Proof. unfold lexical. now intros ->. Qed.

Lemma lexical_digit (c : ascii) (d : Z) :
  digit_value c = Some d -> lexical c = true.
Proof.
  unfold lexical. intros ->.
  rewrite (bool_decide_eq_true_2 (is_Some (Some d))) by eauto.
  now rewrite orb_true_r.
Qed.

Lemma digit_groups_lexical (body : list ascii) (ds : list Z) :
  digit_groups body ds -> Forall (fun c => lexical c = true) body.
Proof.
  induction 1; repeat constructor; eauto using lexical_digit.
Qed.

Lemma integer_literal_lexical (limit : nat) (l : list ascii) (z : Z) :
  integer_literal limit l z -> Forall (fun c => lexical c = true) l.
Proof.
  intros (ws1 & sg & sign & body & ds & ws2 & -> & Hw1 & Hw2 & Hsg & Hg & _).
  repeat (apply Forall_app; split).
  - eapply Forall_impl; [exact Hw1 |]. apply lexical_space.
  - destruct Hsg; repeat constructor.
  - eapply digit_groups_lexical; eauto.
  - eapply Forall_impl; [exact Hw2 |]. apply lexical_space.
Qed.

Lemma transform_keeps_offence (l : list ascii) (c : ascii) :
  In c l -> int_alphabet c = false ->
  Exists (fun a => lexical a = false)
    (_PyUnicode_TransformDecimalAndSpaceToASCII l).
Proof.
  intros Hin Hc. unfold int_alphabet in Hc. apply orb_false_iff in Hc.
  destruct Hc as [Hlex Hsp].
  unfold _PyUnicode_TransformDecimalAndSpaceToASCII.
  destruct (PyUnicode_IS_ASCII l).
  { apply Exists_exists. exists c. split; [| exact Hlex].
    now apply list_elem_of_In. }
  induction l as [| a l IH]; [destruct Hin |]. simpl.
  destruct (ord a <? 127).
  { destruct Hin as [-> | Hin]; [now apply Exists_cons_hd |].
    apply Exists_cons_tl. now apply IH. }
  destruct (Py_UNICODE_ISSPACE a) eqn:Ha.
  { destruct Hin as [-> | Hin]; [congruence |].
    apply Exists_cons_tl. now apply IH. }
  apply Exists_cons_hd. reflexivity.
Qed.

Lemma int_outside_alphabet (limit : nat) (s : string) (c : ascii) :
  In c (chars s) -> int_alphabet c = false ->
  PyLong_FromUnicodeObject limit s = None.
Proof.
  intros Hin Hc. unfold PyLong_FromUnicodeObject.
  destruct (PyLong_FromString limit
              (_PyUnicode_TransformDecimalAndSpaceToASCII (chars s)))
    as [z |] eqn:Hz; [| reflexivity].
  apply PyLong_FromString_sound, integer_literal_lexical in Hz.
  pose proof (transform_keeps_offence _ _ Hin Hc) as Hex.
  apply Exists_exists in Hex. destruct Hex as (a & Ha & Hlex).
  rewrite Forall_forall in Hz. rewrite (Hz a Ha) in Hlex. discriminate.
Qed.

(** *** Signs *)

(** The part of [PyLong_FromString] that runs once the leading white
    space and the sign have been read. *)
Definition magnitude (limit : nat) (sign : Z) (str : list ascii) : option Z :=
  match str with
  | c :: _ => if is_underscore c then None else
      match scan_digits Ascii.zero str with
      | Some (ds, rest) =>
          if (List.length rest =? List.length str)%nat then None
          else match skip_spaces rest with
               | [] =>
                   if too_many_digits limit (List.length ds) then None
                   else Some (sign * decimal_value ds)
               | _ :: _ => None
               end
      | None => None
      end
  | [] => None
  end.

Lemma magnitude_opp (limit : nat) (str : list ascii) :
  magnitude limit (-1) str = Z.opp <$> magnitude limit 1 str.
Proof.
  unfold magnitude. destruct str as [| c r]; [reflexivity |].
  destruct (is_underscore c); [reflexivity |].
  destruct (scan_digits Ascii.zero (c :: r)) as [[ds rest] |]; [| reflexivity].
  destruct (List.length rest =? List.length (c :: r))%nat; [reflexivity |].
  destruct (skip_spaces rest); [| reflexivity].
  destruct (too_many_digits limit (List.length ds)); [reflexivity |].
  simpl. f_equal. lia.
Qed.

Lemma magnitude_no_digit (limit : nat) (sign : Z) (str : list ascii) :
  match str with c :: _ => digit_value c = None | [] => True end ->
  magnitude limit sign str = None.
Proof.
  unfold magnitude. destruct str as [| c r]; [reflexivity |]. intros Hc.
  destruct (is_underscore c) eqn:Hu; [reflexivity |].
  simpl. rewrite Hc, Hu. simpl. now rewrite Nat.eqb_refl.
Qed.

Lemma PyLong_FromString_digit_first (limit : nat) (c : ascii) (d : Z)
  (r : list ascii) :
  digit_value c = Some d ->
  PyLong_FromString limit (c :: r) = magnitude limit 1 (c :: r).
Proof.
  intros Hc. unfold PyLong_FromString.
  rewrite skip_spaces_stop by eauto using digit_not_space.
  now rewrite (read_sign_digit _ _ _ Hc).
Qed.

Lemma PyLong_FromString_minus (limit : nat) (l : list ascii) :
  PyLong_FromString limit ("-"%char :: l) = magnitude limit (-1) l.
Proof. reflexivity. Qed.

Lemma PyLong_FromString_plus (limit : nat) (l : list ascii) :
  PyLong_FromString limit ("+"%char :: l) = magnitude limit 1 l.
Proof. reflexivity. Qed.

Lemma transform_sign (sg : ascii) (l : list ascii) :
  ord sg < 127 ->
  _PyUnicode_TransformDecimalAndSpaceToASCII (sg :: l) =
  sg :: _PyUnicode_TransformDecimalAndSpaceToASCII l.
Proof.
  intros Hsg. apply (transform_plain_prefix [sg] l). now repeat constructor.
Qed.

(** The first character after the transformation is a digit exactly when
    it was one before. *)
Lemma transform_head_no_digit (l : list ascii) :
  match l with c :: _ => digit_value c = None | [] => True end ->
  match _PyUnicode_TransformDecimalAndSpaceToASCII l with
  | c :: _ => digit_value c = None
  | [] => True
  end.
Proof.
  unfold _PyUnicode_TransformDecimalAndSpaceToASCII.
  destruct (PyUnicode_IS_ASCII l); [trivial |].
  destruct l as [| c r]; [trivial |]. simpl. intros Hc.
  destruct (ord c <? 127); [exact Hc |].
  destruct (Py_UNICODE_ISSPACE c); reflexivity.
Qed.

Lemma int_sign_digit (limit : nat) (c : ascii) (d : Z) (s : string) :
  digit_value c = Some d ->
  PyLong_FromUnicodeObject limit (String "-" (String c s)) =
    Z.opp <$> PyLong_FromUnicodeObject limit (String c s) /\
  PyLong_FromUnicodeObject limit (String "+" (String c s)) =
    PyLong_FromUnicodeObject limit (String c s).
Proof.
  intros Hc.
  assert (Hlt : ord c < 127) by (apply digit_value_Some in Hc; lia).
  unfold PyLong_FromUnicodeObject, chars. simpl list_ascii_of_string.
  rewrite !(transform_sign "-"), !(transform_sign "+"), !(transform_sign c)
    by (assumption || (vm_compute; reflexivity)).
  rewrite PyLong_FromString_minus, PyLong_FromString_plus.
  rewrite (PyLong_FromString_digit_first _ _ _ _ Hc).
  split; [apply magnitude_opp | reflexivity].
Qed.

Lemma int_sign_no_digit (limit : nat) (s : string) :
  match chars s with c :: _ => digit_value c = None | [] => True end ->
  PyLong_FromUnicodeObject limit (String "-" s) = None /\
  PyLong_FromUnicodeObject limit (String "+" s) = None.
Proof.
  intros Hs. apply transform_head_no_digit in Hs.
  unfold PyLong_FromUnicodeObject, chars. simpl list_ascii_of_string.
  rewrite !(transform_sign "-"), !(transform_sign "+")
    by (vm_compute; reflexivity).
  rewrite PyLong_FromString_minus, PyLong_FromString_plus.
  split; now apply magnitude_no_digit.
Qed.

(** *** Decimal numerals *)

(** The values of the digits of a decimal number of the standard
    library, most significant first. *)
Fixpoint uint_digits (u : uint) : list Z :=
  match u with
  | Nil => []
  | D0 u => 0 :: uint_digits u
  | D1 u => 1 :: uint_digits u
  | D2 u => 2 :: uint_digits u
  | D3 u => 3 :: uint_digits u
  | D4 u => 4 :: uint_digits u
  | D5 u => 5 :: uint_digits u
  | D6 u => 6 :: uint_digits u
  | D7 u => 7 :: uint_digits u
  | D8 u => 8 :: uint_digits u
  | D9 u => 9 :: uint_digits u
  end.

Lemma uint_digits_length (u : uint) :
  List.length (uint_digits u) = String.length (NilEmpty.string_of_uint u).
Proof. induction u; simpl; congruence. Qed.

Lemma chars_length (s : string) : List.length (chars s) = String.length s.
Proof. unfold chars. induction s; simpl; congruence. Qed.

Lemma uint_plain (u : uint) : plain (chars (NilEmpty.string_of_uint u)).
Proof.
  unfold plain, chars.
  induction u; simpl; constructor; try assumption; vm_compute; reflexivity.
Qed.

Lemma scan_digits_uint (u : uint) (prev : ascii) :
  is_underscore prev = false ->
  scan_digits prev (chars (NilEmpty.string_of_uint u)) =
    Some (uint_digits u, []).
Proof.
  revert prev. unfold chars.
  induction u as [| u IH | u IH | u IH | u IH | u IH | u IH | u IH | u IH
                 | u IH | u IH]; intros prev Hp;
    cbn [NilEmpty.string_of_uint list_ascii_of_string scan_digits uint_digits].
  1: now rewrite Hp.
  all: match goal with
       | |- context [digit_value ?c] =>
           let v := eval vm_compute in (digit_value c) in
           change (digit_value c) with v
       end; cbv iota; rewrite IH by reflexivity; reflexivity.
Qed.

Lemma of_uint_acc_value (u : uint) (acc : positive) :
  Z.pos (Pos.of_uint_acc u acc) =
    fold_left (fun a d => 10 * a + d) (uint_digits u) (Z.pos acc).
Proof.
  revert acc. induction u; intros acc;
    cbn [Pos.of_uint_acc uint_digits fold_left]; [reflexivity | ..];
    rewrite IHu; f_equal; lia.
Qed.

Lemma of_uint_value (u : uint) :
  Z.of_N (N.of_uint u) = decimal_value (uint_digits u).
Proof.
  unfold decimal_value, N.of_uint.
  induction u; cbn [Pos.of_uint uint_digits fold_left];
    [reflexivity | exact IHu | ..];
    cbn [Z.of_N]; rewrite of_uint_acc_value; f_equal.
Qed.

(** A string of decimal digits and nothing else. *)
Lemma int_digits (limit : nat) (s : string) (u : uint) :
  NilEmpty.uint_of_string s = Some u -> s <> EmptyString ->
  PyLong_FromUnicodeObject limit s =
    if too_many_digits limit (String.length s) then None
    else Some (Z.of_N (N.of_uint u)).
Proof.
  intros Hu Hne. apply NilEmpty.sus in Hu. subst s.
  unfold PyLong_FromUnicodeObject.
  rewrite <- (app_nil_r (chars _)).
  rewrite transform_plain_prefix by apply uint_plain.
  change (_PyUnicode_TransformDecimalAndSpaceToASCII []) with (@nil ascii).
  rewrite app_nil_r.
  pose proof (scan_digits_uint u Ascii.zero eq_refl) as Hscan.
  pose proof (uint_digits_length u) as Hlen.
  pose proof (chars_length (NilEmpty.string_of_uint u)) as Hchars.
  destruct (chars (NilEmpty.string_of_uint u)) as [| c r] eqn:Hs.
  { destruct u; simpl in Hne, Hs; try discriminate. now elim Hne. }
  assert (Hc : exists d, digit_value c = Some d).
  { unfold chars in Hs.
    destruct u; simpl in Hs; try discriminate; injection Hs as <- _;
      eexists; reflexivity. }
  destruct Hc as (d & Hc).
  rewrite (PyLong_FromString_digit_first _ _ _ _ Hc).
  unfold magnitude. rewrite (digit_not_underscore _ _ Hc), Hscan.
  simpl. rewrite Hlen, of_uint_value.
  destruct (too_many_digits limit _); [reflexivity |].
  f_equal. lia.
Qed.

(** The decimal numeral of a natural number, as the standard library
    prints it: no sign, no leading zero. *)
Definition numeral (n : N) : string := NilZero.string_of_uint (N.to_uint n).

Lemma int_numeral (limit : nat) (n : N) :
  too_many_digits limit (String.length (numeral n)) = false ->
  PyLong_FromUnicodeObject limit (numeral n) = Some (Z.of_N n).
Proof.
  unfold numeral. intros Hlim.
  rewrite <- (DecimalN.Unsigned.of_to n) at 2.
  destruct (N.to_uint n) as [| u | u | u | u | u | u | u | u | u | u] eqn:Hn.
  1: reflexivity.
  all: match goal with
       | |- context [NilZero.string_of_uint ?v] =>
           change (NilZero.string_of_uint v) with (NilEmpty.string_of_uint v)
             in *;
           rewrite (int_digits limit _ v (NilEmpty.usu v)) by discriminate;
           now rewrite Hlim
       end.
Qed.


End IntFurther.

(** ** More on dispatch *)

Module DispatchFurther.
Import Werkzeug FlaskApp App Observations DispatchFacts StartupFacts.





Lemma resolve_port_Ok_iff (environ : gmap string string) (s : string) (z : Z)
  (w : World) :
  resolve_port (<["PORT" := s]> environ) w = (Ok z, w) <->
  PyInt.PyLong_FromUnicodeObject (int_max_str_digits w) s = Some z.
Proof.
  rewrite (resolve_port_set _ s w) by apply lookup_insert_eq.
  destruct (PyInt.PyLong_FromUnicodeObject (int_max_str_digits w) s) as [z' |];
    split; intros H; try discriminate; injection H as ->; reflexivity.
Qed.

Lemma resolve_port_rejected (environ : gmap string string) (s : string)
  (w : World) :
  environ !! "PORT" = Some s ->
  PyInt.PyLong_FromUnicodeObject (int_max_str_digits w) s = None ->
  resolve_port environ w = (Raise (ValueError s), w) /\
  main "__main__" environ w = (Raise (ValueError s), w).
Proof.
  intros Hset Hbad.
  pose proof (resolve_port_set environ s w Hset) as Hp. rewrite Hbad in Hp.
  split; [exact Hp | now apply main_raised].
Qed.

End DispatchFurther.

(** ** Statements *)

Import IntFurther DispatchFurther.
Import App.

(** X1.  When app.py is imported rather than run, the block under the
    guard does nothing, whatever PORT holds: no port is resolved, no
    server is started, no exception is raised, and the application
    answers requests as it is. *)
Theorem import_guard (name : string) (environ : gmap string string)
  (reqs : list Request) (w : World) :
  name <> "__main__" ->
  main name environ w = (Ok tt, w) /\
  process name environ reqs w = serve_forever (app name) reqs w.
Proof.
  intros Hname. apply String.eqb_neq in Hname.
  assert (Hmain : main name environ w = (Ok tt, w))
    by (unfold main; now rewrite Hname).
  split; [exact Hmain |]. unfold process, bind. now rewrite Hmain.
Qed.

Lemma import_guard_witness :
  "app" <> "__main__" /\
  main "app" (<["PORT" := "abc"]> ∅) fresh = (Ok tt, fresh).
Proof.
  split; [discriminate |].
  apply (import_guard "app" (<["PORT" := "abc"]> ∅) [] fresh). discriminate.
Defined.


(** X3.  A PORT that is set but empty, or holds white space only, is not
    an unset PORT: start-up raises [ValueError] and the default 5000 is
    not used. *)
Theorem blank_port_aborts (environ : gmap string string) (s : string)
  (w : World) :
  environ !! "PORT" = Some s ->
  white_space (chars s) ->
  resolve_port environ w = (Raise (ValueError s), w) /\
  main "__main__" environ w = (Raise (ValueError s), w).
Proof.
  intros Hset Hs. apply resolve_port_rejected; [exact Hset |].
  now apply int_blank.
Qed.

Lemma blank_port_aborts_witness :
  (<["PORT" := EmptyString]> ∅ : gmap string string) !! "PORT" =
    Some EmptyString /\
  white_space (chars EmptyString) /\
  main "__main__" (<["PORT" := EmptyString]> ∅) fresh =
    (Raise (ValueError EmptyString), fresh).
Proof.
  assert (Hw : white_space (chars EmptyString)) by constructor.
  split; [reflexivity | split; [exact Hw |]].
  apply (blank_port_aborts (<["PORT" := EmptyString]> ∅) EmptyString fresh);
    [reflexivity | exact Hw].
Defined.

(** X4.  White space around the PORT value does not count: a value
    padded with tabs, spaces or line ends resolves to a port exactly when
    the bare value does, and to the same port. *)
Theorem surrounding_white_space_ignored (environ : gmap string string)
  (ws1 s ws2 : string) (z : Z) (w : World) :
  white_space (chars ws1) -> white_space (chars ws2) ->
  resolve_port (<["PORT" := ws1 +:+ s +:+ ws2]> environ) w = (Ok z, w) <->
  resolve_port (<["PORT" := s]> environ) w = (Ok z, w).
Proof.
  intros H1 H2. rewrite !resolve_port_Ok_iff.
  now rewrite int_surrounding_white_space.
Qed.

Lemma surrounding_white_space_ignored_witness :
  white_space (chars " ") /\ white_space (chars nl) /\
  resolve_port (<["PORT" := " " +:+ "8080" +:+ nl]> ∅) fresh =
    (Ok 8080, fresh).
Proof.
  assert (H1 : white_space (chars " ")) by (repeat constructor).
  assert (H2 : white_space (chars nl)) by (repeat constructor).
  split; [exact H1 | split; [exact H2 |]].
  apply (surrounding_white_space_ignored ∅ " " "8080" nl 8080 fresh H1 H2).
  reflexivity.
Defined.

(** X5.  A PORT value that holds any character other than a decimal
    digit, an underscore, a sign or white space makes start-up raise
    [ValueError]: hexadecimal, fractions, exponents and units are all
    refused. *)
Theorem foreign_character_aborts (environ : gmap string string) (s : string)
  (c : ascii) (w : World) :
  environ !! "PORT" = Some s ->
  In c (chars s) -> int_alphabet c = false ->
  resolve_port environ w = (Raise (ValueError s), w) /\
  main "__main__" environ w = (Raise (ValueError s), w).
Proof.
  intros Hset Hin Hc. apply resolve_port_rejected; [exact Hset |].
  now apply (int_outside_alphabet _ s c).
Qed.

Lemma foreign_character_aborts_witness :
  (<["PORT" := "0x1F90"]> ∅ : gmap string string) !! "PORT" = Some "0x1F90" /\
  In "x"%char (chars "0x1F90") /\ int_alphabet "x" = false /\
  main "__main__" (<["PORT" := "0x1F90"]> ∅) fresh =
    (Raise (ValueError "0x1F90"), fresh).
Proof.
  assert (Hin : In "x"%char (chars "0x1F90")) by (right; left; reflexivity).
  split; [reflexivity | split; [exact Hin | split; [reflexivity |]]].
  apply (foreign_character_aborts (<["PORT" := "0x1F90"]> ∅) "0x1F90" "x"
           fresh); [reflexivity | exact Hin | reflexivity].
Defined.

(** X6.  PORT set to the decimal numeral of a natural number [n] resolves
    to [n] and starts the server with it, unless the numeral has more
    digits than the interpreter's limit allows; for a TCP port number the
    server binds to that port. *)
Theorem decimal_numeral_starts_server (environ : gmap string string) (n : N)
  (w : World) :
  too_many_digits (int_max_str_digits w) (String.length (numeral n)) = false ->
  resolve_port (<["PORT" := numeral n]> environ) w = (Ok (Z.of_N n), w) /\
  main "__main__" (<["PORT" := numeral n]> environ) w =
    (Ok tt, started w (Z.of_N n)) /\
  (listening_port (Z.of_N n) ->
   listens_on (snd (main "__main__" (<["PORT" := numeral n]> environ) w))
     "0.0.0.0" (Z.of_N n)).
Proof.
  intros Hlim.
  assert (Hp : resolve_port (<["PORT" := numeral n]> environ) w =
                 (Ok (Z.of_N n), w))
    by (apply resolve_port_Ok_iff; now apply int_numeral).
  pose proof (main_started _ _ _ Hp) as Hmain.
  split; [exact Hp | split; [exact Hmain |]].
  intros Hn. rewrite Hmain. now apply listens_on_started.
Qed.

Lemma decimal_numeral_starts_server_witness :
  too_many_digits (int_max_str_digits fresh)
    (String.length (numeral 65535)) = false /\
  numeral 65535 = "65535" /\
  main "__main__" (<["PORT" := numeral 65535]> ∅) fresh =
    (Ok tt, started fresh 65535).
Proof.
  split; [reflexivity | split; [reflexivity |]].
  apply (decimal_numeral_starts_server ∅ 65535 fresh). reflexivity.
Defined.

(** X7.  A sign directly before a digit is read as a sign: with a minus
    the value resolves to the opposite of what the unsigned value
    resolves to, with a plus to the same. *)
Theorem sign_before_digit (environ : gmap string string) (c : ascii) (d : Z)
  (s : string) (z : Z) (w : World) :
  digit_value c = Some d ->
  (resolve_port (<["PORT" := String "-" (String c s)]> environ) w = (Ok z, w)
   <-> resolve_port (<["PORT" := String c s]> environ) w = (Ok (- z), w)) /\
  (resolve_port (<["PORT" := String "+" (String c s)]> environ) w = (Ok z, w)
   <-> resolve_port (<["PORT" := String c s]> environ) w = (Ok z, w)).
Proof.
  intros Hc. rewrite !resolve_port_Ok_iff.
  destruct (int_sign_digit (int_max_str_digits w) c d s Hc) as [-> ->].
  split; [| reflexivity].
  destruct (PyLong_FromUnicodeObject (int_max_str_digits w) (String c s))
    as [v |]; simpl; split; intros H; try discriminate;
    injection H as H; f_equal; lia.
Qed.

Lemma sign_before_digit_witness :
  digit_value "8" = Some 8 /\
  resolve_port (<["PORT" := "-8080"]> ∅) fresh = (Ok (-8080), fresh) /\
  resolve_port (<["PORT" := "+8080"]> ∅) fresh = (Ok 8080, fresh).
Proof.
  split; [reflexivity | split].
  - apply (sign_before_digit ∅ "8" 8 "080" (-8080) fresh eq_refl). reflexivity.
  - apply (sign_before_digit ∅ "8" 8 "080" 8080 fresh eq_refl). reflexivity.
Defined.

(** X8.  A sign that is not directly followed by a digit is refused: a
    lone sign, a sign before white space, before an underscore or before
    another sign makes start-up raise [ValueError]. *)
Theorem sign_without_digit_aborts (environ : gmap string string) (s : string)
  (w : World) :
  match chars s with c :: _ => digit_value c = None | [] => True end ->
  resolve_port (<["PORT" := String "-" s]> environ) w =
    (Raise (ValueError (String "-" s)), w) /\
  resolve_port (<["PORT" := String "+" s]> environ) w =
    (Raise (ValueError (String "+" s)), w).
Proof.
  intros Hs.
  destruct (int_sign_no_digit (int_max_str_digits w) s Hs) as [Hm Hp].
  split; apply resolve_port_rejected;
    try apply lookup_insert_eq; assumption.
Qed.

Lemma sign_without_digit_aborts_witness :
  match chars " 5" with c :: _ => digit_value c = None | [] => True end /\
  resolve_port (<["PORT" := "- 5"]> ∅) fresh =
    (Raise (ValueError "- 5"), fresh).
Proof.
  split; [reflexivity |].
  apply (sign_without_digit_aborts ∅ " 5" fresh). reflexivity.
Defined.

(** X9.  PORT made of decimal digits only is read in base ten, leading
    zeros included (no octal), and is refused exactly when it has more
    digits than the interpreter's limit allows. *)
Theorem digit_string_within_limit (environ : gmap string string) (s : string)
  (u : uint) (w : World) :
  NilEmpty.uint_of_string s = Some u -> s <> EmptyString ->
  resolve_port (<["PORT" := s]> environ) w =
    (if too_many_digits (int_max_str_digits w) (String.length s)
     then Raise (ValueError s)
     else Ok (Z.of_N (N.of_uint u)), w).
Proof.
  intros Hu Hne.
  rewrite (resolve_port_set _ s w) by apply lookup_insert_eq.
  rewrite (int_digits _ s u Hu Hne).
  now destruct (too_many_digits (int_max_str_digits w) (String.length s)).
Qed.

Lemma digit_string_within_limit_witness :
  NilEmpty.uint_of_string "08080" = Some (D0 (D8 (D0 (D8 (D0 Nil))))) /\
  "08080" <> EmptyString /\
  resolve_port (<["PORT" := "08080"]> ∅) fresh = (Ok 8080, fresh).
Proof.
  split; [reflexivity | split; [discriminate |]].
  apply (digit_string_within_limit ∅ "08080" (D0 (D8 (D0 (D8 (D0 Nil)))))
           fresh eq_refl).
  discriminate.
Defined.

(** X10.  The port resolution step accepts exactly the strings of the
    integer-literal grammar, and yields the integer the literal
    denotes: nothing outside the grammar resolves to a port. *)
Theorem resolve_port_iff_literal (environ : gmap string string) (s : string)
  (z : Z) (w : World) :
  resolve_port (<["PORT" := s]> environ) w = (Ok z, w) <->
  valid_integer_string (int_max_str_digits w) s z.
Proof.
  rewrite resolve_port_Ok_iff. apply int_valid_integer_string.
Qed.

(** X11.  The greeting is the body of a response only for a GET request
    to the root path: no other method and no other path gets it. *)
Theorem greeting_only_for_get_root (name : string) (req : Request) (w : World)
  (resp : Response) :
  wsgi_app (app name) req w = (Ok resp, w) ->
  get_data resp = "Hello, World! This is version 1.0!" <->
  method req = GET /\ path req = "/".
Proof.
  intros Hresp. split.
  - intros Hbody.
    destruct (String.string_dec (path req) "/") as [Hp | Hp].
    + split; [| exact Hp].
      rewrite (wsgi_app_root _ _ _ Hp) in Hresp.
      destruct (method req); injection Hresp as <-; try reflexivity;
        discriminate.
    + rewrite (wsgi_app_elsewhere _ _ _ Hp) in Hresp.
      destruct (wsgi_app_Flask_new name req w) as (r & Hr & Hne).
      rewrite Hr in Hresp. injection Hresp as <-. contradiction.
  - intros [Hm Hp]. rewrite (wsgi_app_root _ _ _ Hp), Hm in Hresp.
    injection Hresp as <-. reflexivity.
Qed.

Lemma greeting_only_for_get_root_witness :
  wsgi_app (app "__main__") (mkRequest HEAD "/" "" [] "") fresh =
    (Ok (mkResponse 200 "text/html" [] EmptyString), fresh) /\
  get_data (mkResponse 200 "text/html" [] EmptyString) <>
    "Hello, World! This is version 1.0!".
Proof.
  assert (H : wsgi_app (app "__main__") (mkRequest HEAD "/" "" [] "") fresh =
                (Ok (mkResponse 200 "text/html" [] EmptyString), fresh))
    by reflexivity.
  split; [exact H |]. intros Hbody.
  apply (greeting_only_for_get_root "__main__" (mkRequest HEAD "/" "" [] "")
           fresh _ H) in Hbody.
  destruct Hbody as [Hm _]. discriminate Hm.
Defined.



(** X13.  On every path a HEAD request is answered like the GET request
    for that path, with the same status, content type and allowed
    methods, and with an empty body. *)
Theorem head_mirrors_get (name : string) (p : string) (q1 q2 : string)
  (h1 h2 : list (string * string)) (d1 d2 : string) (w : World) :
  exists r,
    wsgi_app (app name) (mkRequest GET p q1 h1 d1) w = (Ok r, w) /\
    wsgi_app (app name) (mkRequest HEAD p q2 h2 d2) w =
      (Ok (mkResponse (status_code r) (mimetype r) (allow r) EmptyString), w).
Proof.
  destruct (String.string_dec p "/") as [Hp | Hp].
  - subst p. eexists. split; reflexivity.
  - apply match_root_false in Hp.
    unfold wsgi_app, full_dispatch_request, dispatch_request,
      make_default_options_response, allowed_methods.
    rewrite !url_map_app.
    cbn [match_rules flat_map static_rule root_rule rule methods endpoint
         provide_automatic_options app method path].
    rewrite Hp.
    destruct (match_pattern (compile_rule "/static/<path:filename>") p);
      eexists; split; reflexivity.
Qed.



